(** * Position lifecycle reconciliation and settlement engine (src/app.py)

    A shallow embedding of the part of [app.py] that normalises exchange
    positions ([norm_pos]), splits settlement records ([_income_split],
    [fee_calc]) and reconciles two snapshots ([process_positions]),
    together with the properties of it that the specification states.

    Modelling conventions.
    - A Python [float] is a value of [float] below: an exact rational, an
      infinity or NaN.  Comparisons, [abs], [max] and truthiness follow
      Python on NaN and the infinities; the rounding error of the single
      binary64 operations is not modelled (finite results are exact).
    - A Python [str] is a [string] of 8-bit characters; case mapping and
      whitespace are the ASCII ones.
    - The values found in a raw exchange record are [pyval]s.
    - The Upstash store holds decoded values, one component per family of
      keys: [json.dumps] followed by [json.loads] is taken to be the
      identity on what the engine writes, so that a stored position or
      session record is read back with the fields and floats it was
      written with ([asf] of a stored float is that float, [iso_parse] of a
      stored [start_ts] is that instant).
    - [process_positions] runs in a state monad over a [world]: the store,
      the outcome of each request sent to it, the log of these requests,
      the clock, and the alerts handed to [send_pos_alert].  What
      [send_pos_alert] and the templates do with an alert (the switch they
      read, the time they print, the delivery) is outside the model.
    - An instant is a number of milliseconds. *)

From Stdlib Require Import ZArith QArith Qabs Qround Lia Lqa Ascii String.
From stdpp Require Import gmap strings pretty.

Local Open Scope string_scope.

(** ** Floats *)

Module PyFloat.

Inductive float : Type :=
  | Fin (q : Q)
  | PInf
  | NInf
  | NaN.

(** Finite results are kept in lowest terms. *)
Definition fin (q : Q) : float := Fin (Qred q).

Definition of_Z (z : Z) : float := fin (inject_Z z).

Definition zero : float := of_Z 0.
Definition one : float := of_Z 1.

(** Sign of a value that is not NaN: [Lt] negative, [Eq] zero, [Gt] positive. *)
Definition fsign (x : float) : comparison :=
  match x with
  | Fin q => Qcompare q 0
  | PInf => Gt
  | NInf => Lt
  | NaN => Eq
  end.

Definition fneg (x : float) : float :=
  match x with
  | Fin q => fin (- q)
  | PInf => NInf
  | NInf => PInf
  | NaN => NaN
  end.

Definition fabs (x : float) : float :=
  match x with
  | Fin q => fin (Qabs q)
  | PInf | NInf => PInf
  | NaN => NaN
  end.

Definition fadd (x y : float) : float :=
  match x, y with
  | NaN, _ | _, NaN => NaN
  | Fin a, Fin b => fin (a + b)
  | PInf, NInf | NInf, PInf => NaN
  | PInf, _ | _, PInf => PInf
  | NInf, _ | _, NInf => NInf
  end.

Definition fsub (x y : float) : float := fadd x (fneg y).

Definition fmul (x y : float) : float :=
  match x, y with
  | NaN, _ | _, NaN => NaN
  | Fin a, Fin b => fin (a * b)
  | _, _ =>
      match fsign x, fsign y with
      | Eq, _ | _, Eq => NaN
      | Lt, Lt | Gt, Gt => PInf
      | _, _ => NInf
      end
  end.

(** Python's [==], [<], [<=], [>] on floats: every comparison with NaN is
    false. *)
Definition feqb (x y : float) : bool :=
  match x, y with
  | Fin a, Fin b => Qeq_bool a b
  | PInf, PInf | NInf, NInf => true
  | _, _ => false
  end.

Definition fltb (x y : float) : bool :=
  match x, y with
  | NaN, _ | _, NaN => false
  | Fin a, Fin b => negb (Qle_bool b a)
  | _, NInf | PInf, _ => false
  | _, _ => true
  end.

Definition fleb (x y : float) : bool :=
  match x, y with
  | NaN, _ | _, NaN => false
  | Fin a, Fin b => Qle_bool a b
  | NInf, _ | _, PInf => true
  | _, _ => false
  end.

Definition fgtb (x y : float) : bool := fltb y x.

(** [bool(x)]: a float is falsy exactly when it equals zero. *)
Definition ftruthy (x : float) : bool := negb (feqb x zero).

(** [max(a, b)] keeps its first argument unless the second is greater. *)
Definition pymax (a b : float) : float := if fgtb b a then b else a.

(** Python raises on a zero divisor, whatever the dividend. *)
Definition fdiv (x y : float) : option float :=
  if feqb y zero then None
  else Some
    match x, y with
    | NaN, _ | _, NaN => NaN
    | Fin a, Fin b => fin (a / b)
    | Fin _, _ => zero
    | _, Fin _ =>
        match fsign x, fsign y with
        | Lt, Lt | Gt, Gt => PInf
        | _, _ => NInf
        end
    | _, _ => NaN
    end.

(** Nearest integer to [q], ties to the even one. *)
Definition round_half_even (q : Q) : Z :=
  let n := Qfloor q in
  match Qcompare (q - inject_Z n) (1 # 2) with
  | Lt => n
  | Gt => (n + 1)%Z
  | Eq => if Z.even n then n else (n + 1)%Z
  end.

(** [float(f"{x:.8f}")]. *)
Definition round8 (x : float) : float :=
  match x with
  | Fin q => fin (inject_Z (round_half_even (q * inject_Z (10 ^ 8))) / inject_Z (10 ^ 8))
  | _ => x
  end.

(** A decimal literal [m * 10^-e]. *)
Definition dec (m e : Z) : float := fin (inject_Z m / inject_Z (10 ^ e)).

End PyFloat.
Export PyFloat.

(** ** Strings *)

Module PyStr.

Definition code (a : ascii) : N := N_of_ascii a.

(** The ASCII characters that [str.strip] removes. *)
Definition is_space (a : ascii) : bool :=
  let n := code a in
  ((9 <=? n) && (n <=? 13) || (28 <=? n) && (n <=? 32))%N.

Definition is_upper (a : ascii) : bool := let n := code a in ((65 <=? n) && (n <=? 90))%N.
Definition is_lower (a : ascii) : bool := let n := code a in ((97 <=? n) && (n <=? 122))%N.
Definition is_digit (a : ascii) : bool := let n := code a in ((48 <=? n) && (n <=? 57))%N.

(** The class [A-Za-z0-9] of the regular expressions. *)
Definition is_alnum (a : ascii) : bool := is_upper a || is_lower a || is_digit a.

Definition lower_char (a : ascii) : ascii :=
  if is_upper a then ascii_of_N (code a + 32) else a.
Definition upper_char (a : ascii) : ascii :=
  if is_lower a then ascii_of_N (code a - 32) else a.

Fixpoint smap (f : ascii -> ascii) (s : string) : string :=
  match s with
  | EmptyString => EmptyString
  | String a r => String (f a) (smap f r)
  end.

Fixpoint sfilter (f : ascii -> bool) (s : string) : string :=
  match s with
  | EmptyString => EmptyString
  | String a r => if f a then String a (sfilter f r) else sfilter f r
  end.

Fixpoint srev_onto (s acc : string) : string :=
  match s with
  | EmptyString => acc
  | String a r => srev_onto r (String a acc)
  end.

Definition srev (s : string) : string := srev_onto s EmptyString.

Definition lower (s : string) : string := smap lower_char s.
Definition upper (s : string) : string := smap upper_char s.

Fixpoint lstrip (s : string) : string :=
  match s with
  | EmptyString => EmptyString
  | String a r => if is_space a then lstrip r else s
  end.

Definition strip (s : string) : string := srev (lstrip (srev (lstrip s))).

Definition is_empty (s : string) : bool :=
  match s with EmptyString => true | _ => false end.

Fixpoint starts_with (p s : string) : bool :=
  match p, s with
  | EmptyString, _ => true
  | String a p', String b s' => if Ascii.eqb a b then starts_with p' s' else false
  | String _ _, EmptyString => false
  end.

(** [needle in hay]. *)
Fixpoint contains (needle hay : string) : bool :=
  if starts_with needle hay then true
  else match hay with
       | EmptyString => false
       | String _ r => contains needle r
       end.

Definition ends_with (q s : string) : bool := starts_with (srev q) (srev s).

(** [s in (a, b, ...)] for a tuple of strings. *)
Definition among (s : string) (l : list string) : bool :=
  existsb (String.eqb s) l.

(** [s.split(sep)[0]] for a one-character separator. *)
Fixpoint before (sep : ascii) (s : string) : string :=
  match s with
  | EmptyString => EmptyString
  | String a r => if Ascii.eqb a sep then EmptyString else String a (before sep r)
  end.

Fixpoint sdrop (n : nat) (s : string) : string :=
  match n, s with
  | O, _ => s
  | S n', String _ r => sdrop n' r
  | S _, EmptyString => EmptyString
  end.

(** [s[:-n]] for [0 < n]. *)
Definition drop_last (n : nat) (s : string) : string := srev (sdrop n (srev s)).

(** [re.sub(r"[^A-Za-z0-9]", "", s).upper()]. *)
Definition alnum_upper (s : string) : string := upper (sfilter is_alnum s).

Definition remove_commas (s : string) : string :=
  sfilter (fun a => negb (Ascii.eqb a ",")) s.

End PyStr.
Export PyStr.

(** [base_asset]. *)
Definition base_asset (symbol : string) : string :=
  let s := upper symbol in
  match filter (fun sep => contains (String sep EmptyString) s) ["-"; "/"; "_"]%char with
  | sep :: _ => before sep s
  | [] =>
      match filter (fun q => ends_with q s) ["USDT"; "USD"; "PERP"; ".P"] with
      | q :: _ => let r := drop_last (String.length q) s in if is_empty r then s else r
      | [] => s
      end
  end.

(** ** Values of a raw exchange record *)

(** What [json.loads] can put in a record: [None], a [bool], an [int], a
    [float], a [str], or a list or dict, of which only the truth value and
    the text that [str] gives are observed. *)
Inductive pyval : Type :=
  | VNone
  | VBool (b : bool)
  | VInt (z : Z)
  | VFloat (f : float)
  | VStr (s : string)
  | VObj (nonempty : bool) (text : string).

(** What Python's runtime provides: [float(s)] on a string ([None] where it
    raises [ValueError]), [str(x)] on a float, and the calendar date in
    KST, as [%Y-%m-%d], of an instant given in milliseconds. *)
Class PyRuntime : Type := {
  float_of_str : string -> option float;
  str_of_float : float -> string;
  kst_date : Z -> string
}.

(** A raw record, [Dict[str, Any]]. *)
Abbreviation raw := (gmap string pyval).

Definition truthy (v : pyval) : bool :=
  match v with
  | VNone => false
  | VBool b => b
  | VInt z => negb (z =? 0)%Z
  | VFloat f => ftruthy f
  | VStr s => negb (is_empty s)
  | VObj b _ => b
  end.

(** [a or b]. *)
Definition py_or (a b : pyval) : pyval := if truthy a then a else b.

(** [it.get(k)]. *)
Definition dget (it : raw) (k : string) : pyval := default VNone (it !! k).

(** [it.get(k1) or it.get(k2) or ... or d]. *)
Definition first_of (it : raw) (ks : list string) (d : pyval) : pyval :=
  foldr (fun k rest => py_or (dget it k) rest) d ks.

Inductive side : Type := Long | Short.
Inductive margin_mode : Type := Cross | Isolated.

#[global] Instance side_eq_dec : EqDecision side.
Proof. solve_decision. Defined.
#[global] Instance margin_mode_eq_dec : EqDecision margin_mode.
Proof. solve_decision. Defined.

Definition side_name (s : side) : string :=
  match s with Long => "Long" | Short => "Short" end.

(** The dict that [norm_pos] returns. *)
Record position : Type := {
  p_symbol : string;
  p_base : string;
  p_side : side;
  p_qty : float;
  p_entry_price : float;
  p_mark_price : float;
  p_u_pnl : float;
  p_r_pnl : float;
  p_leverage : float;
  p_margin_mode : margin_mode;
  p_value : float;
  p_margin : float;
  p_u_pnl_pct : float;
  p_raw : raw
}.

(** Exceptions of the modelled code. *)
Inductive exn : Type := ZeroDivisionError.

Inductive result (A : Type) : Type :=
  | Ok (a : A)
  | Raise (e : exn).
Arguments Ok {A} a.
Arguments Raise {A} e.

Definition rbind {A B} (m : result A) (k : A -> result B) : result B :=
  match m with
  | Ok a => k a
  | Raise e => Raise e
  end.

Notation "x <-! m ; k" := (rbind m (fun x => k))
  (at level 100, m at next level, right associativity).

(** [x / y] as a statement that may raise. *)
Definition div (x y : float) : result float :=
  match fdiv x y with
  | Some q => Ok q
  | None => Raise ZeroDivisionError
  end.

Section Normalizer.
Context `{PyRuntime}.

Definition py_str (v : pyval) : string :=
  match v with
  | VNone => "None"
  | VBool true => "True"
  | VBool false => "False"
  | VInt z => pretty z
  | VFloat f => str_of_float f
  | VStr s => s
  | VObj _ t => t
  end.

(** [asf]: [float(str(v).replace(",", "").strip())], the default on [None],
    on a [bool] and on whatever [float] refuses.  On an [int] and on a
    [float] the text round-trips to the number itself. *)
Definition asf (v : pyval) (d : float) : float :=
  match v with
  | VNone | VBool _ => d
  | VInt z => of_Z z
  | VFloat f => f
  | VStr s | VObj _ s => default d (float_of_str (strip (remove_commas s)))
  end.

(** The symbol, quantity and side that [norm_pos] resolves. *)
Definition resolved_symbol (it : raw) : string :=
  strip (py_str (first_of it ["symbol"; "ticker"; "pair"] (VStr ""))).

Definition qty_signed (it : raw) : float :=
  asf (first_of it ["positionAmt"; "positionSize"; "position"; "positionAmount";
                    "holdVolume"; "size"] (VInt 0)) zero.

Definition resolved_side (it : raw) : side :=
  let sraw := lower (py_str (first_of it ["positionSide"; "side"; "holdSide"; "posSide"]
                                      (VStr ""))) in
  if contains "short" sraw || among sraw ["sell"; "2"] then Short
  else if contains "long" sraw || among sraw ["buy"; "1"] then Long
  else if fltb (qty_signed it) zero then Short else Long.

(** The quantity after the fall-back to the available amount. *)
Definition resolved_qty (it : raw) : float :=
  let qty := fabs (qty_signed it) in
  if fleb qty zero then fabs (asf (py_or (dget it "availableAmt") (VInt 0)) zero)
  else qty.

Definition norm_pos (it : raw) : result (option position) :=
  let symbol := resolved_symbol it in
  if is_empty symbol then Ok None else
  let side := resolved_side it in
  let qty := resolved_qty it in
  if fleb qty zero then Ok None else
  let entry := asf (first_of it ["avgPrice"; "entryPrice"; "avgOpenPrice"; "openPrice"]
                             (VInt 0)) zero in
  let mark := asf (first_of it ["markPrice"; "lastPrice"; "indexPrice"; "closePrice"]
                            (VFloat entry)) entry in
  let upl := asf (first_of it ["unrealizedProfit"; "unRealizedProfit"; "unrealizedPnl";
                               "upl"; "positionProfit"] (VInt 0)) zero in
  let rpl := asf (first_of it ["realizedProfit"; "realisedPnl"; "realizedPnl"; "rpl"]
                           (VInt 0)) zero in
  let lev := asf (first_of it ["leverage"; "positionLeverage"] (VInt 0)) zero in
  let mm := py_str (first_of it ["marginType"; "marginMode"; "isolated"] (VStr "")) in
  let margin_mode :=
    if contains "isol" (lower mm) || among mm ["true"; "1"] then Isolated else Cross in
  let value := asf (first_of it ["positionValue"; "notional"; "positionNotional"; "value"]
                             (VFloat (fmul qty mark))) (fmul qty mark) in
  dm <-! (if fgtb lev zero then div value lev else Ok zero);
  let margin := asf (first_of it ["positionMargin"; "isolatedMargin"; "margin"]
                              (VFloat dm)) dm in
  lev' <-! (if fleb lev zero
            then (if fgtb margin zero then div value margin else Ok one)
            else Ok lev);
  u_pct <-! (if ftruthy margin
             then (r <-! div upl margin; Ok (fmul r (of_Z 100)))
             else Ok zero);
  Ok (Some {| p_symbol := symbol; p_base := base_asset symbol; p_side := side;
              p_qty := qty; p_entry_price := entry; p_mark_price := mark;
              p_u_pnl := upl; p_r_pnl := rpl; p_leverage := lev';
              p_margin_mode := margin_mode; p_value := value; p_margin := margin;
              p_u_pnl_pct := u_pct; p_raw := it |}).

End Normalizer.

(** ** Settlement reconciler *)

(** What the engine takes from its surroundings: the configured taker fee
    rate and the settlement source, [fetch_income(symbol, start_ms, end_ms)]
    (the empty list where the exchange cannot be reached). *)
Record env : Type := {
  TAKER_FEE_RATE : float;
  fetch_income : string -> Z -> Z -> list raw
}.

Section Settlement.
Context `{PyRuntime} (E : env).

(** The three running sums of [_income_split]:
    [(closed_sum, fee_funding_sum, realized_sum)]. *)
Definition sums : Type := (float * float * float)%type.

Definition rec_symbol (r : raw) : string :=
  strip (py_str (first_of r ["symbol"; "contract"; "ticker"] (VStr ""))).

Definition rec_type (r : raw) : string :=
  lower (py_str (first_of r ["incomeType"; "type"; "bizType"; "income_type"] (VStr ""))).

Definition rec_income (r : raw) : float :=
  asf (first_of r ["income"; "profit"; "amount"; "realizedPnl"] (VInt 0)) zero.

(** The guard before [continue]: the record names another instrument. *)
Definition foreign (req_norm : string) (r : raw) : bool :=
  let rec_sym := rec_symbol r in
  if is_empty rec_sym then false
  else
    let rec_norm := alnum_upper rec_sym in
    negb (is_empty req_norm) && negb (is_empty rec_norm)
    && (negb (contains req_norm rec_norm) && negb (contains rec_norm req_norm)).

Definition is_fee_type (typ : string) : bool :=
  existsb (fun x => contains x typ) ["commission"; "fee"; "funding"; "fund"].

(** One turn of the loop over the records. *)
Definition income_step (req_norm : string) (acc : sums) (r : raw) : sums :=
  let '(closed_sum, fee_funding_sum, realized_sum) := acc in
  if foreign req_norm r then acc
  else
    let inc := rec_income r in
    let realized_sum := fadd realized_sum inc in
    if is_fee_type (rec_type r) then (closed_sum, fadd fee_funding_sum inc, realized_sum)
    else (fadd closed_sum inc, fee_funding_sum, realized_sum).

Definition income_sums (symbol : string) (recs : list raw) : sums :=
  fold_left (income_step (alnum_upper symbol)) recs (zero, zero, zero).

Definition _income_split (symbol : string) (st en : Z) : option sums :=
  match fetch_income E symbol st en with
  | [] => None
  | recs => Some (income_sums symbol recs)
  end.

Definition fee_calc (symbol : string) (st en : Z) (closed entry_v exit_v : float) : sums :=
  match _income_split symbol st en with
  | Some (c, ff, _) => (c, ff, fadd c ff)
  | None =>
      let ff := fmul (fneg (fadd (fabs entry_v) (fabs exit_v))) (TAKER_FEE_RATE E) in
      (closed, ff, fadd closed ff)
  end.

(** The symbol of the record, normalised as the filter does, is neither a
    superstring nor a substring of the normalised requested symbol. *)
Definition unrelated (symbol : string) (r : raw) : Prop :=
  contains (alnum_upper symbol) (alnum_upper (rec_symbol r)) = false /\
  contains (alnum_upper (rec_symbol r)) (alnum_upper symbol) = false.

End Settlement.

(** ** Durable state *)

(** A snapshot is a Python dict from position key to position: the keys
    are distinct and keep the order in which they were first inserted. *)
Abbreviation snapshot := (list (string * position)).

Fixpoint dict_set {A} (k : string) (v : A) (d : list (string * A)) : list (string * A) :=
  match d with
  | [] => [(k, v)]
  | (k', v') :: r => if String.eqb k' k then (k, v) :: r else (k', v') :: dict_set k v r
  end.

Fixpoint dict_get {A} (d : list (string * A)) (k : string) : option A :=
  match d with
  | [] => None
  | (k', v) :: r => if String.eqb k' k then Some v else dict_get r k
  end.

(** [k in d]. *)
Definition dict_mem {A} (k : string) (d : list (string * A)) : bool :=
  match dict_get d k with Some _ => true | None => false end.

(** The [last_*] entries of a session record, absent from a record that was
    rebuilt because the stored one could not be read. *)
Record last_seen : Type := {
  last_qty : float;
  last_mark_price : float;
  last_entry_price : float;
  last_r_pnl : float
}.

Record session : Type := {
  s_symbol : string;
  s_side : side;
  s_base : string;
  s_margin_mode : margin_mode;
  s_leverage : float;
  s_start_ts : Z;
  s_entry_price_init : float;
  s_total_entry_value : float;
  s_total_exit_value : float;
  s_last : option last_seen
}.

(** A row of the trade history. *)
Record trade : Type := {
  t_symbol : string;
  t_side : side;
  t_start_ts : Z;
  t_close_ts : Z;
  t_entry_price : float;
  t_close_price : float;
  t_total_entry_value : float;
  t_total_exit_value : float;
  t_closed_pnl : float;
  t_fee_funding : float;
  t_realized : float;
  t_margin_mode : margin_mode;
  t_leverage : float
}.

(** The keys of the store that the engine uses, each family with the
    values it holds: [state:init_done], [state:open_positions],
    [sess:position:<key>] and the lists [history:trades:<date>]. *)
Record store : Type := {
  db_init_done : option string;
  db_open_positions : option snapshot;
  db_sess : gmap string session;
  db_hist : gmap string (list trade)
}.

(** The requests that [Redis.cmd] sends. *)
Inductive command : Type :=
  | GetInitDone
  | SetInitDone (v : string)
  | GetOpenPositions
  | SetOpenPositions (m : snapshot)
  | GetSess (k : string)
  | SetSess (k : string) (s : session)
  | DelSess (k : string)
  | LPushHist (d : string) (tr : trade)
  | LTrimHist (d : string) (a b : Z).

Definition is_write (c : command) : bool :=
  match c with
  | GetInitDone | GetOpenPositions | GetSess _ => false
  | _ => true
  end.

(** What the position channel is asked to send; the text and the delivery
    are the templates' and Telegram's. *)
Inductive alert : Type :=
  | AlertOpen (p : position)
  | AlertAdd (o p : position)
  | AlertReduce (o p : position)
  | AlertClose (row : trade).

(** The world a cycle runs in.  [w_up n] tells whether the [n]-th request
    to the store gets through ([Redis.cmd] returns [None] otherwise and the
    store is left as it was); [w_log] lists the requests made, the latest
    first, each with that outcome.  [w_clock n] is what the [n]-th reading
    of [now_kst()] returns, in milliseconds.  [w_outbox] lists the alerts
    handed to [send_pos_alert], the latest first. *)
Record world : Type := {
  w_store : store;
  w_up : nat -> bool;
  w_log : list (command * bool);
  w_clock : nat -> Z;
  w_ticks : nat;
  w_outbox : list alert
}.

Definition M (A : Type) : Type := world -> A * world.

Definition ret {A} (a : A) : M A := fun w => (a, w).

Definition bind {A B} (m : M A) (k : A -> M B) : M B :=
  fun w => let (a, w') := m w in k a w'.

Notation "x <- m ;; k" := (bind m (fun x => k))
  (at level 100, m at next level, right associativity).
Notation "m ;;; k" := (bind m (fun _ => k))
  (at level 100, right associativity).

(** A [for] loop that threads a value through its turns. *)
Fixpoint foldM {A S} (f : S -> A -> M S) (s : S) (l : list A) : M S :=
  match l with
  | [] => ret s
  | a :: r => s' <- f s a ;; foldM f s' r
  end.

(** The effect of a request that got through. *)
Definition apply_command (c : command) (st : store) : store :=
  match c with
  | GetInitDone | GetOpenPositions | GetSess _ => st
  | SetInitDone v =>
      {| db_init_done := Some v; db_open_positions := db_open_positions st;
         db_sess := db_sess st; db_hist := db_hist st |}
  | SetOpenPositions m =>
      {| db_init_done := db_init_done st; db_open_positions := Some m;
         db_sess := db_sess st; db_hist := db_hist st |}
  | SetSess k s =>
      {| db_init_done := db_init_done st; db_open_positions := db_open_positions st;
         db_sess := <[k := s]> (db_sess st); db_hist := db_hist st |}
  | DelSess k =>
      {| db_init_done := db_init_done st; db_open_positions := db_open_positions st;
         db_sess := delete k (db_sess st); db_hist := db_hist st |}
  | LPushHist d tr =>
      {| db_init_done := db_init_done st; db_open_positions := db_open_positions st;
         db_sess := db_sess st; db_hist := <[d := tr :: default [] (db_hist st !! d)]> (db_hist st) |}
  | LTrimHist d a b =>
      {| db_init_done := db_init_done st; db_open_positions := db_open_positions st;
         db_sess := db_sess st;
         db_hist := match db_hist st !! d with
                    | Some l =>
                        <[d := take (Z.to_nat (b - a + 1)) (drop (Z.to_nat a) l)]> (db_hist st)
                    | None => db_hist st
                    end |}
  end.

(** [Redis.cmd]: [true] when the request got through. *)
Definition cmd (c : command) : M bool :=
  fun w =>
    let up := w_up w (length (w_log w)) in
    (up,
     {| w_store := if up then apply_command c (w_store w) else w_store w;
        w_up := w_up w; w_log := (c, up) :: w_log w; w_clock := w_clock w;
        w_ticks := w_ticks w; w_outbox := w_outbox w |}).

(** A [GET]: the value read, [None] when the request failed or the key is
    absent. *)
Definition cmd_get {A} (c : command) (read : store -> option A) : M (option A) :=
  fun w => let (up, w') := cmd c w in ((if up then read (w_store w) else None), w').

Definition now_kst : M Z :=
  fun w =>
    (w_clock w (w_ticks w),
     {| w_store := w_store w; w_up := w_up w; w_log := w_log w; w_clock := w_clock w;
        w_ticks := S (w_ticks w); w_outbox := w_outbox w |}).

Definition send_pos_alert (a : alert) : M unit :=
  fun w =>
    (tt,
     {| w_store := w_store w; w_up := w_up w; w_log := w_log w; w_clock := w_clock w;
        w_ticks := w_ticks w; w_outbox := a :: w_outbox w |}).

(** ** Lifecycle diff classifier *)

Record events : Type := {
  ev_open : nat;
  ev_add : nat;
  ev_reduce : nat;
  ev_close : nat
}.

(** The dict that [process_positions] returns; [r_initial_sync] tells
    whether it carries the key [initial_sync]. *)
Record cycle_result : Type := {
  r_ok : bool;
  r_initial_sync : bool;
  r_positions_now : nat;
  r_events : events;
  r_closed_trades : list trade
}.

Definition no_events : events :=
  {| ev_open := 0; ev_add := 0; ev_reduce := 0; ev_close := 0 |}.

Definition pkey (symbol : string) (sd : side) : string :=
  symbol ++ "|" ++ side_name sd.

(** The tolerance written [1e-12] in the comparisons of quantities. *)
Definition EPS : float := dec 1 12.

Inductive qty_change : Type := Added | Reduced | Unchanged.

(** The two guards [q1 > q0 + 1e-12] and [q1 + 1e-12 < q0]. *)
Definition qty_event (q0 q1 : float) : qty_change :=
  if fgtb q1 (fadd q0 EPS) then Added
  else if fltb (fadd q1 EPS) q0 then Reduced
  else Unchanged.

(** The estimate handed to [fee_calc] on a close. *)
Definition closed_estimate (sd : side) (tv_in tv_out : float) : float :=
  match sd with
  | Long => fsub tv_out tv_in
  | Short => fsub tv_in tv_out
  end.

Definition last_of (p : position) : last_seen :=
  {| last_qty := p_qty p; last_mark_price := p_mark_price p;
     last_entry_price := p_entry_price p; last_r_pnl := p_r_pnl p |}.

(** The record written for a position seen for the first time. *)
Definition new_session (p : position) (start_ts : Z) : session :=
  {| s_symbol := p_symbol p; s_side := p_side p; s_base := p_base p;
     s_margin_mode := p_margin_mode p; s_leverage := p_leverage p;
     s_start_ts := start_ts; s_entry_price_init := p_entry_price p;
     s_total_entry_value := p_value p; s_total_exit_value := zero;
     s_last := Some (last_of p) |}.

(** The record used in place of a stored one that could not be read. *)
Definition rebuilt_session (p : position) (start_ts : Z) : session :=
  {| s_symbol := p_symbol p; s_side := p_side p; s_base := p_base p;
     s_margin_mode := p_margin_mode p; s_leverage := p_leverage p;
     s_start_ts := start_ts; s_entry_price_init := p_entry_price p;
     s_total_entry_value := p_value p; s_total_exit_value := zero;
     s_last := None |}.

Definition with_total_entry_value (v : float) (s : session) : session :=
  {| s_symbol := s_symbol s; s_side := s_side s; s_base := s_base s;
     s_margin_mode := s_margin_mode s; s_leverage := s_leverage s;
     s_start_ts := s_start_ts s; s_entry_price_init := s_entry_price_init s;
     s_total_entry_value := v; s_total_exit_value := s_total_exit_value s;
     s_last := s_last s |}.

Definition with_total_exit_value (v : float) (s : session) : session :=
  {| s_symbol := s_symbol s; s_side := s_side s; s_base := s_base s;
     s_margin_mode := s_margin_mode s; s_leverage := s_leverage s;
     s_start_ts := s_start_ts s; s_entry_price_init := s_entry_price_init s;
     s_total_entry_value := s_total_entry_value s; s_total_exit_value := v;
     s_last := s_last s |}.

(** [s.update({"last_qty": ..., ..., "margin_mode": ..., "leverage": ...})]. *)
Definition refreshed (p : position) (s : session) : session :=
  {| s_symbol := s_symbol s; s_side := s_side s; s_base := s_base s;
     s_margin_mode := p_margin_mode p; s_leverage := p_leverage p;
     s_start_ts := s_start_ts s; s_entry_price_init := s_entry_price_init s;
     s_total_entry_value := s_total_entry_value s;
     s_total_exit_value := s_total_exit_value s;
     s_last := Some (last_of p) |}.

Definition with_r_pnl (v : float) (p : position) : position :=
  {| p_symbol := p_symbol p; p_base := p_base p; p_side := p_side p; p_qty := p_qty p;
     p_entry_price := p_entry_price p; p_mark_price := p_mark_price p;
     p_u_pnl := p_u_pnl p; p_r_pnl := v; p_leverage := p_leverage p;
     p_margin_mode := p_margin_mode p; p_value := p_value p; p_margin := p_margin p;
     p_u_pnl_pct := p_u_pnl_pct p; p_raw := p_raw p |}.

Definition bump_open (e : events) : events :=
  {| ev_open := S (ev_open e); ev_add := ev_add e; ev_reduce := ev_reduce e;
     ev_close := ev_close e |}.
Definition bump_add (e : events) : events :=
  {| ev_open := ev_open e; ev_add := S (ev_add e); ev_reduce := ev_reduce e;
     ev_close := ev_close e |}.
Definition bump_reduce (e : events) : events :=
  {| ev_open := ev_open e; ev_add := ev_add e; ev_reduce := S (ev_reduce e);
     ev_close := ev_close e |}.
Definition bump_close (e : events) : events :=
  {| ev_open := ev_open e; ev_add := ev_add e; ev_reduce := ev_reduce e;
     ev_close := S (ev_close e) |}.

Section Engine.
Context `{PyRuntime} (E : env).

(** [fetch_positions] on the records that [fetch_positions_raw] returned.
    [norm_pos] raises on no record ([norm_pos_never_raises] below), so the
    last case of the match is never taken. *)
Definition fetch_positions (raws : list raw) : list position :=
  omap (fun it => match norm_pos it with
                  | Ok (Some p) => Some p
                  | Ok None => None
                  | Raise _ => None
                  end) raws.

(** The dict [cur] built at the head of [process_positions]. *)
Definition current (ps : list position) : snapshot :=
  fold_left (fun cur p => dict_set (pkey (p_symbol p) (p_side p)) p cur) ps [].

Definition open_state : M snapshot :=
  v <- cmd_get GetOpenPositions db_open_positions ;; ret (default [] v).

Definition save_open_state (m : snapshot) : M unit :=
  cmd (SetOpenPositions m) ;;; ret tt.

Definition init_done : M bool :=
  v <- cmd_get GetInitDone db_init_done ;; ret (String.eqb (default "" v) "1").

Definition mark_init_done : M unit :=
  cmd (SetInitDone "1") ;;; ret tt.

Definition sess_get (k : string) : M (option session) :=
  cmd_get (GetSess k) (fun st => db_sess st !! k).

Definition sess_set (k : string) (v : session) : M unit :=
  cmd (SetSess k v) ;;; ret tt.

Definition sess_del (k : string) : M unit :=
  cmd (DelSess k) ;;; ret tt.

(** [hist_push]: [rpush_json(hist_key(d), tr, keep=5000)]. *)
Definition hist_push (tr : trade) : M unit :=
  let d := kst_date (t_close_ts tr) in
  cmd (LPushHist d tr) ;;; cmd (LTrimHist d 0 4999) ;;; ret tt.

(** [_rpnL_since], and the copy [p_show] of the position that the alert
    shows. *)
Definition _rpnL_since (symbol : string) (start_ts : Z) : M (option float) :=
  en <- now_kst ;;
  ret (match _income_split E symbol start_ts en with
       | Some (_, _, real) => Some real
       | None => None
       end).

Definition p_show (p : position) (start_ts : Z) : M position :=
  rp <- _rpnL_since (p_symbol p) start_ts ;;
  ret (match rp with Some v => with_r_pnl v p | None => p end).

(** The first branch of [process_positions], taken while the flag
    [state:init_done] does not read ["1"]. *)
Definition seed_session (_ : unit) (kp : string * position) : M unit :=
  let '(k, p) := kp in
  t <- now_kst ;; sess_set k (new_session p t).

Definition initial_sync (cur : snapshot) : M cycle_result :=
  foldM seed_session tt cur ;;;
  save_open_state cur ;;;
  mark_init_done ;;;
  ret {| r_ok := true; r_initial_sync := true; r_positions_now := length cur;
         r_events := no_events; r_closed_trades := [] |}.

(** One turn of the loop [# open/add/reduce]. *)
Definition open_or_change (send_alert : bool) (prev : snapshot)
    (ev : events) (kp : string * position) : M events :=
  let '(k, p) := kp in
  match dict_get prev k with
  | None =>
      start <- now_kst ;;
      sess_set k (new_session p start) ;;;
      (if send_alert
       then (ps <- p_show p start ;; send_pos_alert (AlertOpen ps))
       else ret tt) ;;;
      ret (bump_open ev)
  | Some o =>
      let q0 := p_qty o in
      let q1 := p_qty p in
      got <- sess_get k ;;
      s <- match got with
           | Some s => ret s
           | None => t <- now_kst ;; ret (rebuilt_session p t)
           end ;;
      es <-
        match qty_event q0 q1 with
        | Added =>
            let dv := pymax (fsub (p_value p) (p_value o))
                            (fmul (fsub q1 q0) (p_entry_price p)) in
            let s := with_total_entry_value
                       (fadd (s_total_entry_value s) (pymax dv zero)) s in
            (if send_alert
             then (ps <- p_show p (s_start_ts s) ;; send_pos_alert (AlertAdd o ps))
             else ret tt) ;;;
            ret (bump_add ev, s)
        | Reduced =>
            let rq := fsub q0 q1 in
            let rv := pymax (fsub (p_value o) (p_value p)) (fmul rq (p_mark_price p)) in
            let s := with_total_exit_value
                       (fadd (s_total_exit_value s) (pymax rv zero)) s in
            (if send_alert
             then (ps <- p_show p (s_start_ts s) ;; send_pos_alert (AlertReduce o ps))
             else ret tt) ;;;
            ret (bump_reduce ev, s)
        | Unchanged => ret (ev, s)
        end ;;
      let '(ev, s) := es in
      sess_set k (refreshed p s) ;;;
      ret ev
  end.

(** The record used on a close when the stored one could not be read. *)
Definition closing_session (o : position) (start_ts : Z) : session :=
  {| s_symbol := p_symbol o; s_side := p_side o; s_base := p_base o;
     s_margin_mode := p_margin_mode o; s_leverage := p_leverage o;
     s_start_ts := start_ts; s_entry_price_init := p_entry_price o;
     s_total_entry_value := p_value o; s_total_exit_value := zero;
     s_last := None |}.

(** The row assembled for a close, from the session record after its exit
    value was completed and the triple that [fee_calc] returned. *)
Definition close_row (s : session) (en : Z) (close_p : float) (r : sums) : trade :=
  let '(closed_pnl, fee, real) := r in
  {| t_symbol := s_symbol s; t_side := s_side s; t_start_ts := s_start_ts s;
     t_close_ts := en; t_entry_price := s_entry_price_init s; t_close_price := close_p;
     t_total_entry_value := s_total_entry_value s;
     t_total_exit_value := s_total_exit_value s;
     t_closed_pnl := round8 closed_pnl; t_fee_funding := round8 fee;
     t_realized := round8 real;
     t_margin_mode := s_margin_mode s; t_leverage := s_leverage s |}.

(** One turn of the loop [# close]. *)
Definition close_gone (send_alert : bool) (cur : snapshot)
    (acc : events * list trade) (ko : string * position) : M (events * list trade) :=
  let '(ev, closed_rows) := acc in
  let '(k, o) := ko in
  if dict_mem k cur then ret acc
  else
    got <- sess_get k ;;
    s <- match got with
         | Some s => ret s
         | None => t <- now_kst ;; ret (closing_session o t)
         end ;;
    let remain_qty := p_qty o in
    let close_p := if ftruthy (p_mark_price o) then p_mark_price o else p_entry_price o in
    let s := with_total_exit_value
               (fadd (s_total_exit_value s) (pymax (fmul remain_qty close_p) zero)) s in
    let tv_in := s_total_entry_value s in
    let tv_out := s_total_exit_value s in
    let closed := closed_estimate (s_side s) tv_in tv_out in
    let st := s_start_ts s in
    en <- now_kst ;;
    let row := close_row s en close_p (fee_calc E (s_symbol s) st en closed tv_in tv_out) in
    hist_push row ;;;
    (if send_alert then send_pos_alert (AlertClose row) else ret tt) ;;;
    sess_del k ;;;
    ret (bump_close ev, (closed_rows ++ [row])%list).

Definition process_positions (raws : list raw) (send_alert : bool) : M cycle_result :=
  let cur := current (fetch_positions raws) in
  prev <- open_state ;;
  done <- init_done ;;
  if negb done then initial_sync cur
  else
    ev <- foldM (open_or_change send_alert prev) no_events cur ;;
    ec <- foldM (close_gone send_alert cur) (ev, []) prev ;;
    let '(ev, closed_rows) := ec in
    save_open_state cur ;;;
    ret {| r_ok := true; r_initial_sync := false; r_positions_now := length cur;
           r_events := ev; r_closed_trades := closed_rows |}.

End Engine.

(** ** A runtime to evaluate examples with *)

Module Sample.

Fixpoint read_digits (s : string) (acc cnt : Z) : Z * Z * string :=
  match s with
  | String a r =>
      if is_digit a then read_digits r (acc * 10 + (Z.of_N (code a) - 48)) (cnt + 1)
      else (acc, cnt, s)
  | EmptyString => (acc, cnt, s)
  end.

(** [float(s)] on the decimal numerals without exponent and on the names of
    the special values; every other text is refused. *)
Definition read_float (s : string) : option float :=
  let l := lower s in
  if among l ["nan"; "+nan"; "-nan"] then Some NaN
  else if among l ["inf"; "+inf"; "infinity"; "+infinity"] then Some PInf
  else if among l ["-inf"; "-infinity"] then Some NInf
  else
    let '(neg, body) :=
      match s with
      | String "-" r => (true, r)
      | String "+" r => (false, r)
      | _ => (false, s)
      end in
    let '(i, ci, rest) := read_digits body 0 0 in
    let sgn (m : Z) := if neg : bool then (- m)%Z else m in
    match rest with
    | EmptyString => if (ci =? 0)%Z then None else Some (dec (sgn i) 0)
    | String "." r =>
        let '(m, cf, rest') := read_digits r i 0 in
        if is_empty rest' && (0 <? ci + cf)%Z then Some (dec (sgn m) cf) else None
    | _ => None
    end.

(** [str(x)]: Python's text for the special values and for the integers;
    a fraction is shown as numerator over denominator. *)
Definition show_float (x : float) : string :=
  match x with
  | NaN => "nan"
  | PInf => "inf"
  | NInf => "-inf"
  | Fin q =>
      if (Z.pos (Qden q) =? 1)%Z then pretty (Qnum q) ++ ".0"
      else pretty (Qnum q) ++ "/" ++ pretty (Z.pos (Qden q))
  end.

Definition pad (n : nat) (z : Z) : string :=
  let s := pretty z in
  String.concat "" (repeat "0" (n - String.length s)) ++ s.

(** The civil date of the day that holds the instant [ms], nine hours ahead
    of UTC. *)
Definition date_kst (ms : Z) : string :=
  let z := ((ms + 9 * 3600 * 1000) / 86400000 + 719468)%Z in
  let era := (z / 146097)%Z in
  let doe := (z - era * 146097)%Z in
  let yoe := ((doe - doe / 1460 + doe / 36524 - doe / 146096) / 365)%Z in
  let doy := (doe - (365 * yoe + yoe / 4 - yoe / 100))%Z in
  let mp := ((5 * doy + 2) / 153)%Z in
  let d := (doy - (153 * mp + 2) / 5 + 1)%Z in
  let m := (if mp <? 10 then mp + 3 else mp - 9)%Z in
  let y := (yoe + era * 400 + (if m <=? 2 then 1 else 0))%Z in
  pad 4 y ++ "-" ++ pad 2 m ++ "-" ++ pad 2 d.

Definition runtime : PyRuntime :=
  {| float_of_str := read_float; str_of_float := show_float; kst_date := date_kst |}.

(** A fee rate of 0.0005 and a settlement source that answers from a fixed
    list of records. *)
Definition env_of (recs : list raw) : env :=
  {| TAKER_FEE_RATE := dec 5 4; fetch_income := fun _ _ _ => recs |}.

(** A store that holds [st] and answers every request that [up] lets
    through; the clock shows [1700000000000 + n] at its [n]-th reading. *)
Definition world_of (st : store) (up : nat -> bool) : world :=
  {| w_store := st; w_up := up; w_log := []; w_clock := fun n => (1700000000000 + Z.of_nat n)%Z;
     w_ticks := 0; w_outbox := [] |}.

Definition always (_ : nat) : bool := true.

(** The record [{"symbol": "BTCUSDT", "positionAmt": NaN}], as [json.loads]
    reads it from a body that carries the token [NaN]. *)
Definition nan_position : raw :=
  <["symbol" := VStr "BTCUSDT"]> (<["positionAmt" := VFloat NaN]> ∅).

(** Settlement records: a realised profit booked on ETHUSDT, and a funding
    fee and a realised profit that name no instrument. *)
Definition eth_record : raw :=
  <["symbol" := VStr "ETHUSDT"]>
    (<["incomeType" := VStr "REALIZED_PNL"]> (<["income" := VStr "12.5"]> ∅)).

Definition unnamed_fee : raw :=
  <["incomeType" := VStr "FUNDING_FEE"]> (<["income" := VStr "-0.25"]> ∅).

Definition unnamed_pnl : raw :=
  <["incomeType" := VStr "REALIZED_PNL"]> (<["income" := VStr "3"]> ∅).

(** A BTCUSDT position of quantity 1, entered at 1000 for a notional of
    1000 and marked at 1100, on the side that [marker] names. *)
Definition btc (marker : string) : raw :=
  <["symbol" := VStr "BTCUSDT"]>
    (<["positionSide" := VStr marker]>
       (<["positionAmt" := VStr "1"]>
          (<["avgPrice" := VStr "1000"]>
             (<["positionValue" := VStr "1000"]> (<["markPrice" := VStr "1100"]> ∅))))).

Definition eth : raw :=
  <["symbol" := VStr "ETH-USDT"]>
    (<["positionAmt" := VStr "-2.5"]>
       (<["entryPrice" := VStr "2,000"]> (<["leverage" := VInt 5]> ∅))).

Definition sol : raw :=
  <["ticker" := VStr "SOLUSDT"]>
    (<["size" := VFloat (dec 40 0)]>
       (<["side" := VStr "buy"]>
          (<["openPrice" := VFloat (dec 1505 1)]> (<["marginType" := VStr "ISOLATED"]> ∅)))).

Definition snapshot_of (raws : list raw) : snapshot :=
  current (fetch_positions (H := runtime) raws).

(** A store that was never synchronised, and one that is synchronised and
    holds [open] as the previous snapshot and no session record. *)
Definition fresh : store :=
  {| db_init_done := None; db_open_positions := None; db_sess := ∅; db_hist := ∅ |}.

Definition synced (open : snapshot) : store :=
  {| db_init_done := Some "1"; db_open_positions := Some open; db_sess := ∅; db_hist := ∅ |}.

(** Two settlement records of BTCUSDT of 0.000000004 each, a realised
    profit and a funding fee. *)
Definition tiny_pnl : raw :=
  <["symbol" := VStr "BTCUSDT"]>
    (<["incomeType" := VStr "REALIZED_PNL"]> (<["income" := VStr "0.000000004"]> ∅)).

Definition tiny_fee : raw :=
  <["symbol" := VStr "BTCUSDT"]>
    (<["incomeType" := VStr "FUNDING_FEE"]> (<["income" := VStr "0.000000004"]> ∅)).

(** The cycle in which the position [btc marker], open in the previous
    snapshot, is gone, and its first row. *)
Definition closing (marker : string) (recs : list raw) (up : nat -> bool) : cycle_result * world :=
  process_positions (H := runtime) (env_of recs) [] false
    (world_of (synced (snapshot_of [btc marker])) up).

Definition blank_row : trade :=
  {| t_symbol := ""; t_side := Long; t_start_ts := 0; t_close_ts := 0; t_entry_price := zero;
     t_close_price := zero; t_total_entry_value := zero; t_total_exit_value := zero;
     t_closed_pnl := zero; t_fee_funding := zero; t_realized := zero;
     t_margin_mode := Cross; t_leverage := zero |}.

Definition closing_row (marker : string) (recs : list raw) : trade :=
  hd blank_row (r_closed_trades (closing marker recs always).1).

Definition three : list raw := [btc "LONG"; eth; sol].

(** The store after the first cycle over a fresh store that saw
    [btc "LONG"]: it holds the flag, the snapshot and one session record. *)
Definition after_sync : store :=
  w_store (process_positions (H := runtime) (env_of []) [btc "LONG"] false
             (world_of fresh always)).2.

(** A store that answers the first two requests only, and one that fails
    the fourth. *)
Definition reads_only (n : nat) : bool := (n <? 2)%nat.

Definition second_fails (n : nat) : bool := negb (n =? 1)%nat.

(** The position [btc "LONG"] after its quantity was doubled. *)
Definition btc_doubled : raw :=
  <["positionAmt" := VStr "2"]> (<["positionValue" := VStr "2000"]> (btc "LONG")).

End Sample.

Local Open Scope list_scope.

(** ** What the statements below speak of *)

(** Every request gets through. *)
Definition store_up (w : world) : Prop := forall n, w_up w n = true.


Section Notions.
Context `{PyRuntime} (E : env).

(** A row whose three results are the rounded components of what
    [fee_calc] returns for the row's own symbol and entry and exit values,
    given the estimate [closed_estimate] of the row's side. *)
Definition settled (row : trade) : Prop :=
  exists st en c ff real,
    fee_calc E (t_symbol row) st en
      (closed_estimate (t_side row) (t_total_entry_value row) (t_total_exit_value row))
      (t_total_entry_value row) (t_total_exit_value row) = (c, ff, real) /\
    t_closed_pnl row = round8 c /\ t_fee_funding row = round8 ff /\
    t_realized row = round8 real.

(** The session record that [open_or_change] works on: the stored one, or
    one rebuilt from the position. *)
Definition session_in_use (w : world) (k : string) (p : position) : session :=
  match db_sess (w_store w) !! k with
  | Some s => s
  | None => rebuilt_session p (w_clock w (w_ticks w))
  end.



End Notions.

(** ** The events that two snapshots call for *)

Definition is_added (c : qty_change) : bool :=
  match c with Added => true | _ => false end.

Definition is_reduced (c : qty_change) : bool :=
  match c with Reduced => true | _ => false end.

(** A key of the current snapshot that the previous one does not hold. *)
Definition opened (prev : snapshot) (kp : string * position) : bool :=
  negb (dict_mem kp.1 prev).

(** A key of both snapshots whose change of quantity is classed by [c]. *)
Definition changed_as (c : qty_change -> bool) (prev : snapshot)
    (kp : string * position) : bool :=
  match dict_get prev kp.1 with
  | Some o => c (qty_event (p_qty o) (p_qty kp.2))
  | None => false
  end.

(** A key of the previous snapshot that the current one does not hold. *)
Definition gone (cur : snapshot) (ko : string * position) : bool :=
  negb (dict_mem ko.1 cur).

Definition expected_events (prev cur : snapshot) : events :=
  {| ev_open := length (List.filter (opened prev) cur);
     ev_add := length (List.filter (changed_as is_added prev) cur);
     ev_reduce := length (List.filter (changed_as is_reduced prev) cur);
     ev_close := length (List.filter (gone cur) prev) |}.

Definition total_events (e : events) : nat :=
  ev_open e + ev_add e + ev_reduce e + ev_close e.

(** ** The session record that a turn of the first loop writes *)

(** The record after the branch that the change of quantity selects. *)
Definition bumped (o p : position) (s : session) : session :=
  match qty_event (p_qty o) (p_qty p) with
  | Added =>
      with_total_entry_value
        (fadd (s_total_entry_value s)
           (pymax (pymax (fsub (p_value p) (p_value o))
                         (fmul (fsub (p_qty p) (p_qty o)) (p_entry_price p))) zero)) s
  | Reduced =>
      with_total_exit_value
        (fadd (s_total_exit_value s)
           (pymax (pymax (fsub (p_value o) (p_value p))
                         (fmul (fsub (p_qty o) (p_qty p)) (p_mark_price p))) zero)) s
  | Unchanged => s
  end.

(** The record written for the position [p]: [o] is its entry in the
    previous snapshot, [stored] the record read from the store and [t] the
    first reading of the clock in the turn. *)
Definition turn_session (o : option position) (p : position) (stored : option session)
    (t : Z) : session :=
  match o with
  | None => new_session p t
  | Some o =>
      refreshed p (bumped o p (match stored with
                               | Some s => s
                               | None => rebuilt_session p t
                               end))
  end.


(** ** Responses of the exchange *)

(** A decoded JSON value, as [r.json()] returns it. *)
#[warnings="-register-all"]
Inductive json : Type :=
  | JNull
  | JBool (b : bool)
  | JInt (z : Z)
  | JFloat (f : float)
  | JStr (s : string)
  | JList (l : list json)
  | JDict (d : list (string * json)).

Definition is_dict (x : json) : bool :=
  match x with JDict _ => true | _ => false end.

Definition jtruthy (x : json) : bool :=
  match x with
  | JNull => false
  | JBool b => b
  | JInt z => negb (z =? 0)%Z
  | JFloat f => ftruthy f
  | JStr s => negb (is_empty s)
  | JList l => match l with [] => false | _ => true end
  | JDict d => match d with [] => false | _ => true end
  end.

(** [[i for i in l if isinstance(i, dict)]]. *)
Definition dicts_of (l : list json) : list json := List.filter is_dict l.

(** The list under the first of the keys [ks] whose value is a list. *)
Fixpoint first_list (d : list (string * json)) (ks : list string) : option (list json) :=
  match ks with
  | [] => None
  | k :: ks' =>
      match dict_get d k with
      | Some (JList l) => Some l
      | _ => first_list d ks'
      end
  end.

(** [data_list]. *)
Definition data_list (x : json) : list json :=
  match x with
  | JList l => dicts_of l
  | JDict d =>
      match first_list d ["positions"; "positionData"; "list"; "data"; "items"] with
      | Some l => dicts_of l
      | None =>
          if jtruthy (default JNull (dict_get d "symbol"))
             || jtruthy (default JNull (dict_get d "ticker"))
          then [x] else []
      end
  | _ => []
  end.



(** ** The figures of the daily summary *)

(** [sum(...)] over floats, starting from 0. *)
Definition py_sum (l : list float) : float := fold_left fadd l zero.

(** [cnt[sym] = cnt.get(sym, 0) + 1]. *)
Definition count_symbol (cnt : list (string * nat)) (sym : string) : list (string * nat) :=
  dict_set sym (default 0 (dict_get cnt sym) + 1) cnt.

(** The numbers that [report_summary_text] prints. *)
Record summary : Type := {
  sm_total : nat;
  sm_win : nat;
  sm_lose : nat;
  sm_wr : float;
  sm_closed : float;
  sm_fee : float;
  sm_real : float;
  sm_cnt : list (string * nat)
}.

Definition is_win (r : trade) : bool :=
  fgtb (fadd (t_closed_pnl r) (t_fee_funding r)) zero.

Definition report_summary (rows : list trade) : result summary :=
  let total := length rows in
  let win := length (List.filter is_win rows) in
  let lose := total - win in
  wr <-! (if (total =? 0)%nat then Ok zero
          else (q <-! div (of_Z (Z.of_nat win)) (of_Z (Z.of_nat total));
                Ok (fmul q (of_Z 100))));
  let s_closed := py_sum (map t_closed_pnl rows) in
  let s_fee := py_sum (map t_fee_funding rows) in
  let s_real := fadd s_closed s_fee in
  let cnt := fold_left (fun cnt r => if is_empty (t_symbol r) then cnt
                                     else count_symbol cnt (t_symbol r)) rows [] in
  Ok {| sm_total := total; sm_win := win; sm_lose := lose; sm_wr := wr;
        sm_closed := s_closed; sm_fee := s_fee; sm_real := s_real; sm_cnt := cnt |}.

(** ** Answers and rows to evaluate examples with *)

Module Cases.




(** Rows of a day: a win on BTCUSDT, a loss on ETHUSDT and a win that
    names no symbol. *)
Definition row_of (symbol : string) (closed fee : float) : trade :=
  {| t_symbol := symbol; t_side := Long; t_start_ts := 0; t_close_ts := 0;
     t_entry_price := zero; t_close_price := zero; t_total_entry_value := zero;
     t_total_exit_value := zero; t_closed_pnl := closed; t_fee_funding := fee;
     t_realized := fadd closed fee; t_margin_mode := Cross; t_leverage := one |}.

Definition day_rows : list trade :=
  [row_of "BTCUSDT" (of_Z 10) (of_Z (-1)); row_of "ETHUSDT" (of_Z (-5)) (of_Z (-1));
   row_of "" (of_Z 2) zero; row_of "BTCUSDT" (of_Z 1) (of_Z (-1))].

End Cases.

(** * Properties *)

(** ** Floats *)

Lemma zero_eq : zero = Fin 0.
Proof. reflexivity. Qed.

Lemma fgtb_zero_nonzero (x : float) : fgtb x zero = true -> feqb x zero = false.
Proof.
  destruct x as [q| | |]; try reflexivity; try discriminate.
  rewrite zero_eq. cbn. intros Hlt.
  destruct (Qeq_bool q 0) eqn:Heq; [|reflexivity].
  apply Qeq_bool_iff in Heq.
  assert (Hle : Qle_bool q 0 = true) by (apply Qle_bool_iff; rewrite Heq; apply Qle_refl).
  rewrite Hle in Hlt. discriminate.
Qed.

Lemma div_defined (x y : float) : feqb y zero = false -> exists q, div x y = Ok q.
Proof. intros Hy. unfold div, fdiv. rewrite Hy. eauto. Qed.

(** No float is greater than itself plus the tolerance, nor is its sum with
    the tolerance below it: NaN compares false, an infinity absorbs the
    tolerance, and the tolerance is positive. *)
Lemma qty_event_same (q : float) : qty_event q q = Unchanged.
Proof.
  unfold qty_event, fgtb.
  destruct q as [q| | |]; try reflexivity.
  assert (Hle : Qle_bool q (Qred (q + Qred (inject_Z 1 / inject_Z (10 ^ 12)))) = true).
  { apply Qle_bool_iff. rewrite !Qred_correct.
    assert (0 <= inject_Z 1 / inject_Z (10 ^ 12))%Q by (vm_compute; discriminate).
    lra. }
  unfold EPS, dec, fadd, fin, fltb. rewrite Hle. reflexivity.
Qed.

(** A change of quantity within the tolerance is no change. *)
Lemma qty_event_within_eps (q0 q1 : Q) :
  (Qabs (q1 - q0) <= 1 # 10 ^ 12)%Q -> qty_event (Fin q0) (Fin q1) = Unchanged.
Proof.
  intros Habs. apply Qabs_Qle_condition in Habs. destruct Habs as [Hlo Hhi].
  assert (He : (inject_Z 1 / inject_Z (10 ^ 12) == 1 # 10 ^ 12)%Q) by reflexivity.
  unfold qty_event, fgtb, EPS, dec, fadd, fin, fltb.
  assert (H1 : Qle_bool q1 (Qred (q0 + Qred (inject_Z 1 / inject_Z (10 ^ 12)))) = true).
  { apply Qle_bool_iff. rewrite !Qred_correct, He. lra. }
  assert (H2 : Qle_bool q0 (Qred (q1 + Qred (inject_Z 1 / inject_Z (10 ^ 12)))) = true).
  { apply Qle_bool_iff. rewrite !Qred_correct, He. lra. }
  rewrite H1, H2. reflexivity.
Qed.

(** ** Normalizer *)

Section NormalizerFacts.
Context `{PyRuntime}.

Lemma is_empty_true (s : string) : is_empty s = true <-> s = "".
Proof. destruct s; cbn; split; intros; congruence. Qed.

(** Every division of [norm_pos] stands behind a guard that excludes a zero
    divisor, so the function returns on every record. *)
Lemma norm_pos_never_raises (it : raw) : exists r, norm_pos it = Ok r.
Proof.
  unfold norm_pos.
  destruct (is_empty (resolved_symbol it)); [eauto|].
  destruct (fleb (resolved_qty it) zero); [eauto|].
  set (lev := asf (first_of it ["leverage"; "positionLeverage"] (VInt 0)) zero).
  set (value := asf (first_of it _ (VFloat _)) _).
  set (upl := asf (first_of it ["unrealizedProfit"; _; _; _; _] _) _).
  assert (Hdm : exists dm, (if fgtb lev zero then div value lev else Ok zero) = Ok dm).
  { destruct (fgtb lev zero) eqn:Hl; [|eauto].
    apply div_defined, fgtb_zero_nonzero, Hl. }
  destruct Hdm as [dm ->]. cbn [rbind].
  set (margin := asf (first_of it ["positionMargin"; _; _] _) dm).
  assert (Hlev : exists l, (if fleb lev zero
                            then (if fgtb margin zero then div value margin else Ok one)
                            else Ok lev) = Ok l).
  { destruct (fleb lev zero); [|eauto].
    destruct (fgtb margin zero) eqn:Hm; [|eauto].
    apply div_defined, fgtb_zero_nonzero, Hm. }
  destruct Hlev as [l ->]. cbn [rbind].
  destruct (ftruthy margin) eqn:Hm; cbn [rbind]; [|eauto].
  destruct (div_defined upl margin) as [r ->]; [|cbn [rbind]; eauto].
  unfold ftruthy in Hm. destruct (feqb margin zero); [discriminate|reflexivity].
Qed.

(** [norm_pos] rejects a record exactly when it resolves no symbol or the
    quantity it resolves, the available amount included, is [<= 0]. *)
Lemma norm_pos_none_iff (it : raw) :
  norm_pos it = Ok None <->
  resolved_symbol it = "" \/ fleb (resolved_qty it) zero = true.
Proof.
  destruct (norm_pos_never_raises it) as [r Hr]. revert Hr.
  unfold norm_pos.
  destruct (is_empty (resolved_symbol it)) eqn:Hs.
  { intros _. split; [intros _; left; apply is_empty_true, Hs|reflexivity]. }
  destruct (fleb (resolved_qty it) zero) eqn:Hq.
  { intros _. split; [intros _; right; reflexivity|reflexivity]. }
  intros Hr. split.
  - intros Hn. exfalso. revert Hn.
    repeat match goal with
    | |- context [rbind ?m _] =>
        let r := fresh "r" in destruct m as [r|] eqn:?; cbn [rbind]
    end; discriminate.
  - intros [He|Hc]; [|discriminate].
    apply is_empty_true in He. congruence.
Qed.

(** What [norm_pos] returns carries the resolved symbol, which is not
    empty, and the resolved quantity, which is not [<= 0]. *)
Lemma norm_pos_some (it : raw) (p : position) :
  norm_pos it = Ok (Some p) ->
  p_symbol p = resolved_symbol it /\ p_symbol p <> "" /\
  p_qty p = resolved_qty it /\ fleb (p_qty p) zero = false.
Proof.
  unfold norm_pos.
  destruct (is_empty (resolved_symbol it)) eqn:Hs; [discriminate|].
  destruct (fleb (resolved_qty it) zero) eqn:Hq; [discriminate|].
  repeat match goal with
  | |- context [rbind ?m _] =>
      let r := fresh "r" in destruct m as [r|] eqn:?; cbn [rbind]
  end; try discriminate.
  intros [= <-]. cbn. repeat split; try assumption.
  intros He. apply is_empty_true in He. congruence.
Qed.

(** A quantity that is a number and is not [<= 0] is positive. *)
Lemma not_le_zero_positive (x : float) :
  x <> NaN -> fleb x zero = false -> fgtb x zero = true.
Proof.
  destruct x as [q| | |]; try reflexivity; try discriminate; [|congruence].
  intros _. rewrite zero_eq. cbn. intros ->. reflexivity.
Qed.

(** C9: [norm_pos] returns [None] exactly when it resolves no symbol or a
    quantity [<= 0], and it never raises; but a returned Position need not
    have a strictly positive quantity.  On the record [nan_position] the
    quantity is NaN, which passes both tests [qty <= 0], and the Position
    returned has a quantity that is not greater than zero. *)
Theorem norm_pos_nan_quantity :
  exists p, norm_pos Sample.nan_position = Ok (Some p) /\
            p_symbol p = "BTCUSDT" /\ p_qty p = NaN /\ fgtb (p_qty p) zero = false.
Proof. eexists. split; [vm_compute; reflexivity|]. repeat split. Qed.

End NormalizerFacts.

(** ** Settlement reconciler *)

Section SettlementFacts.
Context `{PyRuntime} (E : env).

Lemma contains_empty (s : string) : contains "" s = true.
Proof. destruct s; reflexivity. Qed.

Lemma unrelated_foreign (symbol : string) (r : raw) :
  unrelated symbol r -> foreign (alnum_upper symbol) r = true.
Proof.
  intros [Hsup Hsub]. unfold foreign.
  destruct (is_empty (rec_symbol r)) eqn:Hr.
  { apply is_empty_true in Hr. rewrite Hr in Hsub. cbn in Hsub.
    rewrite contains_empty in Hsub. discriminate. }
  destruct (is_empty (alnum_upper symbol)) eqn:Hq.
  { apply is_empty_true in Hq. rewrite Hq, contains_empty in Hsup. discriminate. }
  destruct (is_empty (alnum_upper (rec_symbol r))) eqn:Hn.
  { apply is_empty_true in Hn. rewrite Hn, contains_empty in Hsub. discriminate. }
  rewrite Hsup, Hsub. reflexivity.
Qed.

Lemma income_step_foreign (req_norm : string) (acc : sums) (r : raw) :
  foreign req_norm r = true -> income_step req_norm acc r = acc.
Proof. intros Hf. destruct acc as [[c ff] real]. cbn. rewrite Hf. reflexivity. Qed.

Lemma income_sums_skip (symbol : string) (r : raw) (recs1 recs2 : list raw) :
  foreign (alnum_upper symbol) r = true ->
  income_sums symbol (recs1 ++ r :: recs2) = income_sums symbol (recs1 ++ recs2).
Proof.
  intros Hf. unfold income_sums. rewrite !fold_left_app. cbn [fold_left].
  rewrite income_step_foreign by exact Hf. reflexivity.
Qed.

(** C5: a settlement record whose normalised symbol is neither a superstring
    nor a substring of the normalised requested symbol leaves the three sums
    as they are, wherever it stands among the records returned, so what
    [_income_split] and [fee_calc] return is computed from the other
    records alone; and a record for ETHUSDT is such a record when BTCUSDT
    is requested. *)
Theorem foreign_record_contributes_nothing (symbol : string) (r : raw) :
  unrelated symbol r ->
  (forall acc, income_step (alnum_upper symbol) acc r = acc) /\
  (forall recs1 recs2,
     income_sums symbol (recs1 ++ r :: recs2) = income_sums symbol (recs1 ++ recs2)) /\
  (forall st en recs1 recs2,
     fetch_income E symbol st en = recs1 ++ r :: recs2 ->
     _income_split E symbol st en = Some (income_sums symbol (recs1 ++ recs2)) /\
     forall closed entry_v exit_v,
       fee_calc E symbol st en closed entry_v exit_v =
       (let '(c, ff, _) := income_sums symbol (recs1 ++ recs2) in (c, ff, fadd c ff))) /\
  (forall e, rec_symbol e = "ETHUSDT" -> unrelated "BTCUSDT" e).
Proof.
  intros Hu. pose proof (unrelated_foreign _ _ Hu) as Hf.
  split; [|split; [|split]].
  - intros acc. apply income_step_foreign, Hf.
  - intros. apply income_sums_skip, Hf.
  - intros st en recs1 recs2 Hrecs.
    assert (Hs : _income_split E symbol st en = Some (income_sums symbol (recs1 ++ recs2))).
    { unfold _income_split. rewrite Hrecs.
      rewrite <- (income_sums_skip symbol r recs1 recs2 Hf).
      destruct recs1; reflexivity. }
    split; [exact Hs|]. intros closed entry_v exit_v.
    unfold fee_calc. rewrite Hs. reflexivity.
  - intros e He. unfold unrelated. rewrite He. split; reflexivity.
Qed.


(** C4: when the settlement source returns no record, [fee_calc] returns the
    estimate it was given as closed PnL, minus the taker fee rate times the
    sum of the absolute entry and exit values as fee and funding, and the
    sum of the two as realized. *)
Theorem fallback_estimator (symbol : string) (st en : Z) (closed entry_v exit_v : float) :
  fetch_income E symbol st en = [] ->
  let ff := fmul (fneg (fadd (fabs entry_v) (fabs exit_v))) (TAKER_FEE_RATE E) in
  _income_split E symbol st en = None /\
  fee_calc E symbol st en closed entry_v exit_v = (closed, ff, fadd closed ff).
Proof.
  intros Hrecs ff.
  assert (Hs : _income_split E symbol st en = None)
    by (unfold _income_split; rewrite Hrecs; reflexivity).
  split; [exact Hs|]. unfold fee_calc. rewrite Hs. reflexivity.
Qed.

End SettlementFacts.

Lemma foreign_record_contributes_nothing_witness :
  unrelated (H := Sample.runtime) "BTCUSDT" Sample.eth_record /\
  income_sums (H := Sample.runtime) "BTCUSDT"
    ([Sample.unnamed_pnl] ++ Sample.eth_record :: [Sample.unnamed_fee]) =
  income_sums (H := Sample.runtime) "BTCUSDT" ([Sample.unnamed_pnl] ++ [Sample.unnamed_fee]).
Proof.
  assert (Hu : unrelated (H := Sample.runtime) "BTCUSDT" Sample.eth_record)
    by (split; vm_compute; reflexivity).
  split; [exact Hu|].
  apply (foreign_record_contributes_nothing (H := Sample.runtime) (Sample.env_of [])
           "BTCUSDT" Sample.eth_record Hu).
Defined.


Lemma fallback_estimator_witness :
  fee_calc (H := Sample.runtime) (Sample.env_of []) "BTCUSDT" 0 1 (of_Z 100) (of_Z 1000) (of_Z 1100)
  = (of_Z 100, dec (-105) 2, dec 9895 2).
Proof.
  refine (eq_trans
    (proj2 (fallback_estimator (H := Sample.runtime) (Sample.env_of []) "BTCUSDT" 0 1
              (of_Z 100) (of_Z 1000) (of_Z 1100) _)) _); vm_compute; reflexivity.
Defined.

(** ** Loops and dicts *)

(** Name the result and the world that the next call of a sequence yields. *)
Ltac run_step :=
  match goal with
  | |- context [let (_, _) := ?x in _] => destruct x as [? ?]
  end.

(** A property of the threaded value and the world that every turn keeps
    holds when the loop ends. *)
Lemma foldM_invariant {A S} (f : S -> A -> M S) (I : S -> world -> Prop) (l : list A) :
  (forall s a w, In a l -> I s w -> I (f s a w).1 (f s a w).2) ->
  forall s w, I s w -> I (foldM f s l w).1 (foldM f s l w).2.
Proof.
  induction l as [|a l IH]; intros Hstep s w Hs; [exact Hs|].
  cbn [foldM]. unfold bind.
  pose proof (Hstep s a w (or_introl eq_refl) Hs) as Ha.
  destruct (f s a w) as [s' w']. cbn [fst snd] in Ha.
  apply IH; [|exact Ha].
  intros s0 a0 w0 Hin. apply Hstep. right. exact Hin.
Qed.

Lemma dict_get_set_eq {A} (k : string) (v : A) (d : list (string * A)) :
  dict_get (dict_set k v d) k = Some v.
Proof.
  induction d as [|[k' v'] d IH]; cbn.
  - rewrite String.eqb_refl. reflexivity.
  - destruct (String.eqb k' k) eqn:Hk; cbn.
    + rewrite String.eqb_refl. reflexivity.
    + rewrite Hk. exact IH.
Qed.

Lemma dict_set_keys {A} (k : string) (v : A) (d : list (string * A)) :
  (dict_set k v d).*1 = d.*1 \/ (dict_set k v d).*1 = d.*1 ++ [k] /\ ~ In k d.*1.
Proof.
  induction d as [|[k' v'] d IH]; cbn.
  - right. split; [reflexivity|tauto].
  - destruct (String.eqb k' k) eqn:Hk; cbn.
    + apply String.eqb_eq in Hk. subst. left. reflexivity.
    + apply String.eqb_neq in Hk.
      destruct IH as [->|[-> Hn]]; [left; reflexivity|right].
      split; [reflexivity|]. intros [?|?]; [congruence|tauto].
Qed.

Lemma dict_set_NoDup {A} (k : string) (v : A) (d : list (string * A)) :
  NoDup d.*1 -> NoDup (dict_set k v d).*1.
Proof.
  intros Hd. destruct (dict_set_keys k v d) as [->|[-> Hn]]; [exact Hd|].
  apply NoDup_app. split; [exact Hd|]. split.
  - intros x Hx Hk. apply list_elem_of_In in Hk. cbn in Hk.
    destruct Hk as [<-|[]]. apply Hn, list_elem_of_In, Hx.
  - apply NoDup_singleton.
Qed.

Lemma In_dict_get {A} (k : string) (v : A) (d : list (string * A)) :
  NoDup d.*1 -> In (k, v) d -> dict_get d k = Some v.
Proof.
  induction d as [|[k' v'] d IH]; cbn; [tauto|].
  intros Hd Hin. apply NoDup_cons in Hd. destruct Hd as [Hk' Hd].
  destruct Hin as [[= -> ->]|Hin].
  - rewrite String.eqb_refl. reflexivity.
  - destruct (String.eqb k' k) eqn:Hk; [|apply IH; assumption].
    apply String.eqb_eq in Hk. subst. exfalso. apply Hk'.
    apply list_elem_of_In, (in_map fst _ (k, v)), Hin.
Qed.

Lemma dict_get_In {A} (k : string) (v : A) (d : list (string * A)) :
  dict_get d k = Some v -> In (k, v) d.
Proof.
  induction d as [|[k' v'] d IH]; cbn; [discriminate|].
  destruct (String.eqb k' k) eqn:Hk.
  - apply String.eqb_eq in Hk. intros [= ->]. left. congruence.
  - intros Hg. right. apply IH, Hg.
Qed.

Lemma dict_get_None {A} (k : string) (d : list (string * A)) :
  dict_get d k = None <-> ~ In k d.*1.
Proof.
  induction d as [|[k' v'] d IH]; cbn; [tauto|].
  destruct (String.eqb k' k) eqn:Hk.
  - apply String.eqb_eq in Hk. split; [discriminate|]. intros Hn. exfalso. tauto.
  - apply String.eqb_neq in Hk. rewrite IH. tauto.
Qed.

Section CurrentFacts.
Context `{PyRuntime}.

(** The keys of the dict [cur] are distinct. *)
Lemma current_NoDup (ps : list position) : NoDup (current ps).*1.
Proof.
  unfold current.
  assert (Hgen : forall (d : snapshot), NoDup d.*1 ->
            NoDup (fold_left (fun cur p => dict_set (pkey (p_symbol p) (p_side p)) p cur) ps d).*1).
  { induction ps as [|p ps IH]; intros d Hd; cbn; [exact Hd|].
    apply IH, dict_set_NoDup, Hd. }
  apply Hgen. constructor.
Qed.

End CurrentFacts.

(** ** Lifecycle diff classifier *)

Section EngineFacts.
Context `{PyRuntime} (E : env).


Lemma close_row_settled (s : session) (en : Z) (close_p : float) :
  settled E (close_row s en close_p
             (fee_calc E (s_symbol s) (s_start_ts s) en
                (closed_estimate (s_side s) (s_total_entry_value s) (s_total_exit_value s))
                (s_total_entry_value s) (s_total_exit_value s))).
Proof.
  destruct (fee_calc E (s_symbol s) (s_start_ts s) en
              (closed_estimate (s_side s) (s_total_entry_value s) (s_total_exit_value s))
              (s_total_entry_value s) (s_total_exit_value s)) as [[c ff] real] eqn:Hf.
  exists (s_start_ts s), en, c, ff, real. cbn. rewrite Hf. repeat split.
Qed.

Lemma close_gone_settled (send_alert : bool) (cur : snapshot)
    (acc : events * list trade) (ko : string * position) (w : world) :
  Forall (settled E) acc.2 -> Forall (settled E) (close_gone E send_alert cur acc ko w).1.2.
Proof.
  destruct acc as [ev rows], ko as [k o]. cbn [snd]. intros Hrows.
  unfold close_gone. destruct (dict_mem k cur); [exact Hrows|].
  unfold bind.
  repeat run_step. cbn.
  apply Forall_app. split; [exact Hrows|].
  constructor; [|constructor].
  apply (close_row_settled (with_total_exit_value _ s)).
Qed.

(** Every row that a cycle returns is [settled]. *)
Lemma closed_trades_settled (raws : list raw) (send_alert : bool) (w : world) (row : trade) :
  In row (r_closed_trades (process_positions E raws send_alert w).1) -> settled E row.
Proof.
  unfold process_positions, bind.
  destruct (open_state w) as [prev w1].
  destruct (init_done w1) as [done w2].
  destruct done; cbn [negb].
  - destruct (foldM (open_or_change E send_alert prev) no_events _ w2) as [ev w3].
    pose proof (foldM_invariant
                  (close_gone E send_alert (current (fetch_positions raws)))
                  (fun acc _ => Forall (settled E) acc.2) prev) as Hinv.
    specialize (Hinv (fun s a w0 _ Hs => close_gone_settled send_alert _ s a w0 Hs)
                  (ev, []) w3 (Forall_nil_2 _)).
    destruct (foldM (close_gone E send_alert _) (ev, []) prev w3) as [[ev' rows] w4].
    cbn [fst snd] in Hinv.
    destruct (save_open_state _ w4) as [u w5]. cbn.
    intros Hin. rewrite Forall_forall in Hinv. apply Hinv, list_elem_of_In, Hin.
  - unfold initial_sync, bind.
    destruct (foldM _ tt _ w2) as [u w3].
    destruct (save_open_state _ w3) as [u1 w4].
    destruct (mark_init_done w4) as [u2 w5]. cbn. tauto.
Qed.

(** C7, as the code has it: no outcome of a request to the store reaches
    the result of a cycle.  [Redis.cmd] turns a failed request into [None],
    the helpers that write drop what it returns, and [process_positions]
    returns [ok = True] on every path. *)
Theorem cycle_always_reports_ok (raws : list raw) (send_alert : bool) (w : world) :
  r_ok (process_positions E raws send_alert w).1 = true.
Proof.
  unfold process_positions, bind.
  destruct (open_state w) as [prev w1].
  destruct (init_done w1) as [done w2].
  destruct done; cbn [negb].
  - destruct (foldM (open_or_change E send_alert prev) no_events _ w2) as [ev w3].
    destruct (foldM (close_gone E send_alert _) (ev, []) prev w3) as [[ev' rows] w4].
    destruct (save_open_state _ w4) as [u w5]. reflexivity.
  - unfold initial_sync, bind.
    destruct (foldM _ tt _ w2) as [u w3].
    destruct (save_open_state _ w3) as [u1 w4].
    destruct (mark_init_done w4) as [u2 w5]. reflexivity.
Qed.

End EngineFacts.

(** ** Finalized trades *)


Lemma round_half_even_comp (q q' : Q) :
  (q == q')%Q -> round_half_even q = round_half_even q'.
Proof.
  intros Hq. unfold round_half_even.
  rewrite (Qfloor_comp _ _ Hq).
  assert (Hc : (q - inject_Z (Qfloor q') == q' - inject_Z (Qfloor q'))%Q) by (rewrite Hq; reflexivity).
  rewrite (Qcompare_comp _ _ Hc _ _ (Qeq_refl (1 # 2))). reflexivity.
Qed.


Section TradeFacts.
Context `{PyRuntime} (E : env).

(** C6: every row that a cycle returns holds the rounded results of
    [fee_calc] called with the estimate [total_exit_value -
    total_entry_value] when the side of the session is Long and
    [total_entry_value - total_exit_value] when it is Short; for an exit
    value of 1100 and an entry value of 1000 the estimate is 100 for Long
    and -100 for Short. *)
Theorem close_estimate_by_side (raws : list raw) (send_alert : bool) (w : world) (row : trade) :
  In row (r_closed_trades (process_positions E raws send_alert w).1) ->
  (exists st en c ff real,
     fee_calc E (t_symbol row) st en
       (match t_side row with
        | Long => fsub (t_total_exit_value row) (t_total_entry_value row)
        | Short => fsub (t_total_entry_value row) (t_total_exit_value row)
        end)
       (t_total_entry_value row) (t_total_exit_value row) = (c, ff, real) /\
     t_closed_pnl row = round8 c /\ t_fee_funding row = round8 ff /\
     t_realized row = round8 real) /\
  closed_estimate Long (of_Z 1000) (of_Z 1100) = of_Z 100 /\
  closed_estimate Short (of_Z 1000) (of_Z 1100) = of_Z (-100).
Proof.
  intros Hin. split; [|split; reflexivity].
  destruct (closed_trades_settled E raws send_alert w row Hin)
    as (st & en & c & ff & real & Hf & Hc & Hff & Hr).
  exists st, en, c, ff, real. unfold closed_estimate in Hf. auto.
Qed.


End TradeFacts.

Lemma close_estimate_by_side_witness :
  t_closed_pnl (Sample.closing_row "LONG" []) = of_Z 100 /\
  t_closed_pnl (Sample.closing_row "SHORT" []) = of_Z (-100) /\
  exists st en c ff real,
    fee_calc (H := Sample.runtime) (Sample.env_of []) "BTCUSDT" st en
      (fsub (of_Z 1000) (of_Z 1100)) (of_Z 1000) (of_Z 1100) = (c, ff, real) /\
    round8 c = of_Z (-100).
Proof.
  split; [vm_compute; reflexivity|]. split; [vm_compute; reflexivity|].
  destruct (close_estimate_by_side (H := Sample.runtime) (Sample.env_of []) [] false
              (Sample.world_of (Sample.synced (Sample.snapshot_of [Sample.btc "SHORT"]))
                 Sample.always)
              (Sample.closing_row "SHORT" []))
    as [(st & en & c & ff & real & Hf & Hc & _) _].
  - vm_compute. left. reflexivity.
  - exists st, en, c, ff, real. split; [exact Hf|]. rewrite <- Hc. vm_compute. reflexivity.
Defined.



(** ** Cycles over a store that answers *)

Section CycleFacts.
Context `{PyRuntime} (E : env).

Lemma cmd_up (c : command) (w : world) :
  store_up w ->
  cmd c w = (true, {| w_store := apply_command c (w_store w); w_up := w_up w;
                      w_log := (c, true) :: w_log w; w_clock := w_clock w;
                      w_ticks := w_ticks w; w_outbox := w_outbox w |}).
Proof. intros Hup. unfold cmd. rewrite Hup. reflexivity. Qed.

Lemma seed_session_up (k : string) (p : position) (w : world) :
  store_up w ->
  seed_session tt (k, p) w =
  (tt, {| w_store := apply_command (SetSess k (new_session p (w_clock w (w_ticks w)))) (w_store w);
          w_up := w_up w;
          w_log := (SetSess k (new_session p (w_clock w (w_ticks w))), true) :: w_log w;
          w_clock := w_clock w; w_ticks := S (w_ticks w); w_outbox := w_outbox w |}).
Proof.
  intros Hup. unfold seed_session, bind, now_kst, sess_set, bind, ret.
  rewrite cmd_up by exact Hup. reflexivity.
Qed.

(** The loop of the first synchronisation writes a fresh record for every
    key of [l] and touches nothing else. *)
Lemma seed_loop (l : snapshot) (w : world) :
  store_up w -> NoDup l.*1 ->
  let w' := (foldM seed_session tt l w).2 in
  store_up w' /\ w_outbox w' = w_outbox w /\
  db_init_done (w_store w') = db_init_done (w_store w) /\
  db_open_positions (w_store w') = db_open_positions (w_store w) /\
  db_hist (w_store w') = db_hist (w_store w) /\
  (forall k p, In (k, p) l ->
     exists t, db_sess (w_store w') !! k = Some (new_session p t)) /\
  (forall k, ~ In k l.*1 -> db_sess (w_store w') !! k = db_sess (w_store w) !! k).
Proof.
  revert w. induction l as [|[k p] l IH]; intros w Hup Hnd.
  { cbn. repeat split; try assumption; try reflexivity. intros k p []. }
  cbn [foldM]. unfold bind. rewrite seed_session_up by exact Hup.
  set (w1 := {| w_store := _ |}).
  apply NoDup_cons in Hnd. destruct Hnd as [Hk Hnd].
  assert (Hup1 : store_up w1) by exact Hup.
  destruct (IH w1 Hup1 Hnd) as (Hu & Ho & Hi & Hop & Hh & Hin & Hout).
  repeat split; try assumption.
  - intros k' p' [[= <- <-]|Hin'].
    + exists (w_clock w (w_ticks w)). rewrite Hout.
      * cbn. apply lookup_insert_eq.
      * intros Hc. apply Hk, list_elem_of_In, Hc.
    + apply Hin, Hin'.
  - intros k' Hn. rewrite Hout by (intros Hc; apply Hn; right; exact Hc).
    cbn. apply lookup_insert_ne. intros ->. apply Hn. left. reflexivity.
Qed.

(** C2: when the store answers and the flag [state:init_done] does not
    read ["1"], a cycle returns zero counts and no trade, hands no alert to
    the position channel, leaves for every key of the current snapshot a
    session record seeded from its position (initial entry price the
    position's entry price, total entry value its notional, total exit
    value zero) and no other new record, stores the current snapshot as the
    previous one and sets the flag. *)
Theorem cold_start_is_silent (raws : list raw) (send_alert : bool) (w : world) :
  store_up w -> db_init_done (w_store w) <> Some "1" ->
  let cur := current (fetch_positions raws) in
  let r := (process_positions E raws send_alert w).1 in
  let w' := (process_positions E raws send_alert w).2 in
  r_events r = {| ev_open := 0; ev_add := 0; ev_reduce := 0; ev_close := 0 |} /\
  r_closed_trades r = [] /\ r_positions_now r = length cur /\
  w_outbox w' = w_outbox w /\
  db_open_positions (w_store w') = Some cur /\
  db_init_done (w_store w') = Some "1" /\
  (forall k p, dict_get cur k = Some p ->
     exists s, db_sess (w_store w') !! k = Some s /\
               s_symbol s = p_symbol p /\ s_side s = p_side p /\
               s_entry_price_init s = p_entry_price p /\
               s_total_entry_value s = p_value p /\
               s_total_exit_value s = zero) /\
  (forall k, dict_get cur k = None -> db_sess (w_store w') !! k = db_sess (w_store w) !! k).
Proof.
  intros Hup Hflag cur r w'. subst r w'.
  unfold process_positions, open_state, init_done, cmd_get, bind.
  rewrite cmd_up by exact Hup. cbn [ret].
  set (w1 := {| w_store := _ |}).
  assert (Hup1 : store_up w1) by exact Hup.
  rewrite cmd_up by exact Hup1. cbn [ret].
  set (w2 := {| w_store := _ |}).
  assert (Hup2 : store_up w2) by exact Hup.
  assert (Hdone : String.eqb (default "" (db_init_done (w_store w1))) "1" = false).
  { apply String.eqb_neq. cbn. intros He. apply Hflag.
    destruct (db_init_done (w_store w)) as [v|]; cbn in He; [congruence|discriminate]. }
  rewrite Hdone. cbn [negb].
  unfold initial_sync, bind.
  pose proof (seed_loop (current (fetch_positions raws)) w2 Hup2 (current_NoDup _))
    as (Hu & Ho & Hi & Hop & Hh & Hin & Hout).
  destruct (foldM seed_session tt (current (fetch_positions raws)) w2) as [u w3].
  cbn [snd] in *.
  unfold save_open_state, mark_init_done, bind, ret.
  rewrite cmd_up by exact Hu. set (w4 := {| w_store := _ |}).
  assert (Hup4 : store_up w4) by exact Hu.
  rewrite cmd_up by exact Hup4. cbn.
  repeat split; try reflexivity; try assumption.
  - intros k p Hg. destruct (Hin k p (dict_get_In _ _ _ Hg)) as [t Ht].
    exists (new_session p t). repeat split. exact Ht.
  - intros k Hg. apply Hout, dict_get_None, Hg.
Qed.

End CycleFacts.

Section SteadyFacts.
Context `{PyRuntime} (E : env).

(** A turn of the loop for a key whose position is the one of the previous
    snapshot: the record is read, refreshed and written back. *)
Lemma unchanged_turn (send_alert : bool) (prev : snapshot) (ev : events)
    (k : string) (p : position) (w : world) :
  store_up w -> dict_get prev k = Some p ->
  let s := session_in_use w k p in
  open_or_change E send_alert prev ev (k, p) w =
  (ev, {| w_store := apply_command (SetSess k (refreshed p s)) (w_store w);
          w_up := w_up w;
          w_log := (SetSess k (refreshed p s), true) :: (GetSess k, true) :: w_log w;
          w_clock := w_clock w;
          w_ticks := match db_sess (w_store w) !! k with
                     | Some _ => w_ticks w
                     | None => S (w_ticks w)
                     end;
          w_outbox := w_outbox w |}).
Proof.
  intros Hup Hprev s. subst s.
  unfold open_or_change, session_in_use. rewrite Hprev, qty_event_same.
  unfold bind, sess_get, cmd_get. rewrite cmd_up by exact Hup.
  destruct (db_sess (w_store w) !! k) as [s|]; cbn [ret now_kst]; unfold sess_set, bind;
    rewrite cmd_up by exact Hup; reflexivity.
Qed.

(** The loop over positions that are those of the previous snapshot counts
    no event, sends nothing, and leaves every record it finds refreshed. *)
Lemma unchanged_loop (send_alert : bool) (prev : snapshot) (ev : events)
    (l : snapshot) (w : world) :
  store_up w -> NoDup l.*1 ->
  (forall k p, In (k, p) l -> dict_get prev k = Some p) ->
  let res := foldM (open_or_change E send_alert prev) ev l w in
  res.1 = ev /\ store_up res.2 /\ w_outbox res.2 = w_outbox w /\
  db_init_done (w_store res.2) = db_init_done (w_store w) /\
  db_open_positions (w_store res.2) = db_open_positions (w_store w) /\
  db_hist (w_store res.2) = db_hist (w_store w) /\
  (forall k p s, In (k, p) l -> db_sess (w_store w) !! k = Some s ->
     db_sess (w_store res.2) !! k = Some (refreshed p s)) /\
  (forall k, ~ In k l.*1 -> db_sess (w_store res.2) !! k = db_sess (w_store w) !! k).
Proof.
  revert w. induction l as [|[k p] l IH]; intros w Hup Hnd Hprev.
  { cbn. repeat split; try assumption; try reflexivity. intros k p s []. }
  cbn [foldM]. unfold bind.
  rewrite unchanged_turn; [|exact Hup|apply Hprev; left; reflexivity].
  set (w1 := {| w_store := _ |}).
  apply NoDup_cons in Hnd. destruct Hnd as [Hk Hnd].
  assert (Hup1 : store_up w1) by exact Hup.
  destruct (IH w1 Hup1 Hnd (fun k' p' Hin => Hprev k' p' (or_intror Hin)))
    as (Hev & Hu & Ho & Hi & Hop & Hh & Hin & Hout).
  repeat split; try assumption.
  - intros k' p' s [[= <- <-]|Hin'] Hs.
    + rewrite Hout by (intros Hc; apply Hk, list_elem_of_In, Hc).
      cbn. unfold session_in_use. rewrite Hs. apply lookup_insert_eq.
    + apply Hin; [exact Hin'|]. cbn. rewrite lookup_insert_ne; [exact Hs|].
      intros ->. apply Hk, list_elem_of_In, (in_map fst _ (k', p')), Hin'.
  - intros k' Hn. rewrite Hout by (intros Hc; apply Hn; right; exact Hc).
    cbn. apply lookup_insert_ne. intros ->. apply Hn. left. reflexivity.
Qed.

(** The loop over the previous snapshot does nothing for the keys that are
    still in the current one. *)
Lemma nothing_closed (send_alert : bool) (cur : snapshot) (acc : events * list trade)
    (l : snapshot) (w : world) :
  (forall k o, In (k, o) l -> dict_mem k cur = true) ->
  foldM (close_gone E send_alert cur) acc l w = (acc, w).
Proof.
  revert w. induction l as [|[k o] l IH]; intros w Hl; [reflexivity|].
  cbn [foldM]. unfold bind, close_gone at 1. destruct acc as [ev rows].
  rewrite (Hl k o (or_introl eq_refl)). cbn [ret].
  apply IH. intros k' o' Hin. apply (Hl k' o'). right. exact Hin.
Qed.

(** C3: after the initial synchronisation, when the store answers and the
    current snapshot is the one stored as previous, a cycle counts no open,
    add, reduce or close event and returns no trade, sends nothing, and
    every session record it finds is left with the same total entry and
    exit values (and symbol, side, start and initial entry price): it is
    the record [refreshed] from the position, and where margin mode and
    leverage already agree with the position only the [last_*] entries are
    written anew.  A change of quantity smaller than the tolerance is
    classed as no change, so it enters neither the add nor the reduce
    branch. *)
Theorem unchanged_cycle_is_idle (raws : list raw) (send_alert : bool) (w : world) :
  store_up w ->
  db_init_done (w_store w) = Some "1" ->
  db_open_positions (w_store w) = Some (current (fetch_positions raws)) ->
  let cur := current (fetch_positions raws) in
  let r := (process_positions E raws send_alert w).1 in
  let w' := (process_positions E raws send_alert w).2 in
  (r_events r = {| ev_open := 0; ev_add := 0; ev_reduce := 0; ev_close := 0 |} /\
   r_closed_trades r = [] /\ w_outbox w' = w_outbox w) /\
  (forall k s, db_sess (w_store w) !! k = Some s ->
     exists s', db_sess (w_store w') !! k = Some s' /\
       s_total_entry_value s' = s_total_entry_value s /\
       s_total_exit_value s' = s_total_exit_value s /\
       s_symbol s' = s_symbol s /\ s_side s' = s_side s /\
       s_start_ts s' = s_start_ts s /\
       s_entry_price_init s' = s_entry_price_init s /\
       (s' = s \/
        exists p, dict_get cur k = Some p /\ s' = refreshed p s /\
          (s_margin_mode s = p_margin_mode p -> s_leverage s = p_leverage p ->
           s' = {| s_symbol := s_symbol s; s_side := s_side s; s_base := s_base s;
                   s_margin_mode := s_margin_mode s; s_leverage := s_leverage s;
                   s_start_ts := s_start_ts s;
                   s_entry_price_init := s_entry_price_init s;
                   s_total_entry_value := s_total_entry_value s;
                   s_total_exit_value := s_total_exit_value s;
                   s_last := Some (last_of p) |}))) /\
  (forall q0 q1 : Q, (Qabs (q1 - q0) < 1 # 10 ^ 12)%Q ->
     qty_event (Fin q0) (Fin q1) = Unchanged).
Proof.
  intros Hup Hflag Hopen cur r w'. subst r w'.
  split; [|split]; [| |intros q0 q1 Hlt; apply qty_event_within_eps, Qlt_le_weak, Hlt].
  all: unfold process_positions, open_state, init_done, cmd_get, bind.
  all: rewrite cmd_up by exact Hup; cbn [ret].
  all: set (w1 := {| w_store := _ |}).
  all: assert (Hup1 : store_up w1) by exact Hup.
  all: rewrite cmd_up by exact Hup1; cbn [ret].
  all: set (w2 := {| w_store := _ |}).
  all: assert (Hup2 : store_up w2) by exact Hup.
  all: change (db_init_done (w_store w1)) with (db_init_done (w_store w)).
  all: rewrite Hflag, Hopen.
  all: change (default "" (Some "1")) with "1".
  all: change (default [] (Some (current (fetch_positions raws))))
         with (current (fetch_positions raws)).
  all: change (String.eqb "1" "1") with true; cbn [negb]; cbv beta.
  all: subst cur; set (cur := current (fetch_positions raws)) in *.
  all: pose proof (unchanged_loop send_alert cur no_events cur w2 Hup2 (current_NoDup _)
                     (fun k p Hin => In_dict_get k p cur (current_NoDup _) Hin))
         as (Hev & Hu & Ho & Hi & Hop & Hh & Hin & Hout).
  all: destruct (foldM (open_or_change E send_alert cur) no_events cur w2) as [ev w3].
  all: cbn [fst snd] in *; subst ev.
  all: rewrite nothing_closed
         by (intros k o Hk; unfold dict_mem;
             rewrite (In_dict_get k o cur (current_NoDup _) Hk); reflexivity).
  all: unfold save_open_state, bind, ret; rewrite cmd_up by exact Hu; cbn.
  - repeat split. exact Ho.
  - intros k s Hs.
    destruct (dict_get cur k) as [p|] eqn:Hg.
    + exists (refreshed p s).
      split; [apply (Hin k p s (dict_get_In _ _ _ Hg) Hs)|].
      repeat split. right. exists p. repeat split.
      intros Hm Hl. unfold refreshed. rewrite <- Hm, <- Hl. reflexivity.
    + exists s. split; [rewrite Hout by (apply dict_get_None, Hg); exact Hs|].
      repeat split. left. reflexivity.
Qed.

End SteadyFacts.

(** ** The order of the requests *)

Section OrderFacts.
Context `{PyRuntime} (E : env).









End OrderFacts.

(** ** The engine on sample worlds *)

(** Split a conjunction of closed equations and evaluate each of them. *)
Ltac evaluated :=
  repeat match goal with |- _ /\ _ => split end; vm_compute; reflexivity.

Lemma cold_start_is_silent_witness :
  let res := process_positions (H := Sample.runtime) (Sample.env_of []) Sample.three true
               (Sample.world_of Sample.fresh Sample.always) in
  r_events res.1 = no_events /\ r_positions_now res.1 = 3 /\ w_outbox res.2 = [] /\
  db_init_done (w_store res.2) = Some "1" /\
  db_open_positions (w_store res.2) = Some (Sample.snapshot_of Sample.three).
Proof.
  destruct (cold_start_is_silent (H := Sample.runtime) (Sample.env_of []) Sample.three true
              (Sample.world_of Sample.fresh Sample.always))
    as (He & _ & Hn & Ho & Hop & Hi & _).
  - intros n. reflexivity.
  - discriminate.
  - cbv zeta. repeat split; assumption.
Defined.

Lemma unchanged_cycle_is_idle_witness :
  let res := process_positions (H := Sample.runtime) (Sample.env_of []) Sample.three true
               (Sample.world_of (Sample.synced (Sample.snapshot_of Sample.three))
                  Sample.always) in
  r_events res.1 = no_events /\ r_closed_trades res.1 = [] /\ w_outbox res.2 = [] /\
  qty_event (Fin 1) (Fin (1000000000000001 # 1000000000000000)) = Unchanged.
Proof.
  destruct (unchanged_cycle_is_idle (H := Sample.runtime) (Sample.env_of []) Sample.three true
              (Sample.world_of (Sample.synced (Sample.snapshot_of Sample.three))
                 Sample.always))
    as ((He & Hc & Ho) & _ & Hq).
  - intros n. reflexivity.
  - reflexivity.
  - reflexivity.
  - cbv zeta. split; [exact He|]. split; [exact Hc|]. split; [exact Ho|].
    apply Hq. vm_compute. reflexivity.
Defined.

(** C7 fails as stated: over a store that answers the two reads and then
    fails every write, the cycle's three writes (a session record, the
    snapshot, the flag) fail, nothing is stored, and the result still says
    [ok = True]. *)
Lemma failed_writes_go_unreported :
  let res := process_positions (H := Sample.runtime) (Sample.env_of []) [Sample.btc "LONG"] true
               (Sample.world_of Sample.fresh Sample.reads_only) in
  In (SetOpenPositions (Sample.snapshot_of [Sample.btc "LONG"]), false) (w_log res.2) /\
  length (filter (fun e => is_write e.1 && negb e.2) (w_log res.2)) = 3 /\
  db_open_positions (w_store res.2) = None /\
  db_sess (w_store res.2) !! "BTCUSDT|Long" = None /\
  r_ok res.1 = true.
Proof.
  cbv zeta. split; [vm_compute; right; left; reflexivity|].
  evaluated.
Qed.


(** * Further properties of the code *)

(** ** [norm_pos] *)

Lemma fabs_not_negative (x : float) : fltb (fabs x) zero = false.
Proof.
  destruct x as [q| | |]; try reflexivity.
  rewrite zero_eq. cbn.
  assert (Hle : Qle_bool 0 (Qred (Qabs q)) = true).
  { apply Qle_bool_iff. rewrite Qred_correct. apply Qabs_nonneg. }
  rewrite Hle. reflexivity.
Qed.

Section NormalizerMore.
Context `{PyRuntime}.

Lemma resolved_qty_not_negative (it : raw) : fltb (resolved_qty it) zero = false.
Proof.
  unfold resolved_qty. destruct (fleb (fabs (qty_signed it)) zero); apply fabs_not_negative.
Qed.

(** X1: [norm_pos] returns on every record, whatever the record holds:
    each of its three divisions is guarded against a zero divisor.  It
    returns [None] or a Position that keeps the record as [raw], takes its
    base asset from the symbol and has a key side of Long or Short decided
    by the record alone. *)
Theorem norm_pos_returns (it : raw) :
  norm_pos it = Ok None \/
  exists p, norm_pos it = Ok (Some p) /\ p_raw p = it /\
            p_base p = base_asset (p_symbol p) /\ p_side p = resolved_side it.
Proof.
  destruct (norm_pos_never_raises it) as [[p|] Hr]; [right|left; exact Hr].
  exists p. split; [exact Hr|]. revert Hr. unfold norm_pos.
  destruct (is_empty (resolved_symbol it)); [discriminate|].
  destruct (fleb (resolved_qty it) zero); [discriminate|].
  repeat match goal with
  | |- context [rbind ?m _] =>
      let r := fresh "r" in destruct m as [r|] eqn:?; cbn [rbind]
  end; try discriminate.
  intros [= <-]. repeat split.
Qed.

(** X2: [norm_pos] rejects a record exactly when the symbol it resolves is
    empty or the quantity it resolves (the available amount when the
    position amount is not positive) is [<= 0].  A Position it returns has
    a non-empty symbol and a quantity that is never negative and never
    [<= 0]; the quantity is strictly positive unless it is NaN. *)
Theorem norm_pos_accepts (it : raw) :
  (norm_pos it = Ok None <->
   resolved_symbol it = "" \/ fleb (resolved_qty it) zero = true) /\
  (forall p, norm_pos it = Ok (Some p) ->
     p_symbol p = resolved_symbol it /\ p_symbol p <> "" /\
     p_qty p = resolved_qty it /\
     fleb (p_qty p) zero = false /\ fltb (p_qty p) zero = false /\
     (p_qty p <> NaN -> fgtb (p_qty p) zero = true)).
Proof.
  split; [apply norm_pos_none_iff|].
  intros p Hp. destruct (norm_pos_some it p Hp) as (Hs & Hne & Hq & Hle).
  repeat split; try assumption.
  - rewrite Hq. apply resolved_qty_not_negative.
  - intros Hn. apply not_le_zero_positive; assumption.
Qed.

End NormalizerMore.

(** ** Position keys and the current snapshot *)

Lemma length_sapp (s t : string) :
  String.length (s ++ t)%string = String.length s + String.length t.
Proof. induction s as [|c s IH]; [reflexivity|]. simpl. f_equal. exact IH. Qed.

Lemma sapp_inv_tail (s1 s2 t : string) : (s1 ++ t = s2 ++ t)%string -> s1 = s2.
Proof.
  revert s2. induction s1 as [|c s1 IH]; intros [|c2 s2] Heq.
  - reflexivity.
  - apply (f_equal String.length) in Heq. rewrite !length_sapp in Heq. simpl in Heq. lia.
  - apply (f_equal String.length) in Heq. rewrite !length_sapp in Heq. simpl in Heq. lia.
  - change (String c (s1 ++ t) = String c2 (s2 ++ t))%string in Heq.
    injection Heq as -> Heq. f_equal. apply IH, Heq.
Qed.

(** Of two texts with a common extension, the shorter ending is an ending
    of the longer one. *)
Lemma sapp_suffix (s1 s2 a b : string) :
  (s1 ++ a = s2 ++ b)%string -> String.length a <= String.length b ->
  exists c, b = (c ++ a)%string.
Proof.
  revert s2. induction s1 as [|c s1 IH]; intros [|c2 s2] Heq Hlen.
  - exists "". symmetry. exact Heq.
  - apply (f_equal String.length) in Heq. rewrite !length_sapp in Heq. simpl in Heq. lia.
  - exists (String c s1). symmetry. exact Heq.
  - change (String c (s1 ++ a) = String c2 (s2 ++ b))%string in Heq.
    injection Heq as _ Heq. apply (IH s2 Heq Hlen).
Qed.

Lemma long_short_endings (s1 s2 : string) : (s1 ++ "|Long" <> s2 ++ "|Short")%string.
Proof.
  intros Heq.
  destruct (sapp_suffix s1 s2 "|Long" "|Short" Heq) as [c Hc]; [simpl; lia|].
  apply (f_equal String.length) in Hc as Hl. rewrite length_sapp in Hl. simpl in Hl.
  destruct c as [|x [|y c]]; simpl in Hl; try lia.
  change ("|Short" = String x "|Long") in Hc. discriminate.
Qed.

(** X3: [pkey] is injective: two keys are equal only if symbol and side
    both are, also when a symbol holds the separator ["|"]. *)
Theorem pkey_injective (symbol1 symbol2 : string) (side1 side2 : side) :
  pkey symbol1 side1 = pkey symbol2 side2 -> symbol1 = symbol2 /\ side1 = side2.
Proof.
  unfold pkey. destruct side1, side2; intros Heq.
  - split; [apply (sapp_inv_tail _ _ "|Long" Heq)|reflexivity].
  - exfalso. apply (long_short_endings _ _ Heq).
  - exfalso. symmetry in Heq. apply (long_short_endings _ _ Heq).
  - split; [apply (sapp_inv_tail _ _ "|Short" Heq)|reflexivity].
Qed.

Lemma pkey_injective_witness :
  pkey "BTC|Short" Long <> pkey "BTC" Short /\
  ("BTCUSDT" = "BTCUSDT" /\ Long = Long).
Proof.
  split; [intros Heq; destruct (pkey_injective _ _ _ _ Heq); discriminate|].
  apply (pkey_injective "BTCUSDT" "BTCUSDT" Long Long). reflexivity.
Defined.

Lemma dict_get_set {A} (k k' : string) (v : A) (d : list (string * A)) :
  dict_get (dict_set k v d) k' = if String.eqb k k' then Some v else dict_get d k'.
Proof.
  induction d as [|[k0 v0] d IH]; cbn.
  - reflexivity.
  - destruct (String.eqb k0 k) eqn:Hk0; cbn.
    + apply String.eqb_eq in Hk0. subst k0.
      destruct (String.eqb k k'); reflexivity.
    + rewrite IH. destruct (String.eqb k0 k') eqn:Hk'; [|reflexivity].
      apply String.eqb_eq in Hk'. subst k0. rewrite String.eqb_sym, Hk0. reflexivity.
Qed.

Lemma dict_set_length {A} (k : string) (v : A) (d : list (string * A)) :
  length (dict_set k v d) <= S (length d).
Proof.
  induction d as [|[k0 v0] d IH]; cbn; [lia|].
  destruct (String.eqb k0 k); cbn; lia.
Qed.

Section SnapshotFacts.
Context `{PyRuntime}.

Lemma current_snoc (ps : list position) (p : position) :
  current (ps ++ [p]) = dict_set (pkey (p_symbol p) (p_side p)) p (current ps).
Proof. unfold current. rewrite fold_left_app. reflexivity. Qed.

Lemma current_entries (ps : list position) (k : string) (p : position) :
  dict_get (current ps) k = Some p -> k = pkey (p_symbol p) (p_side p) /\ In p ps.
Proof.
  revert k p. induction ps as [|q ps IH] using rev_ind; [discriminate|].
  intros k p. rewrite current_snoc, dict_get_set.
  destruct (String.eqb _ k) eqn:Hk.
  - apply String.eqb_eq in Hk. intros [= <-]. split; [congruence|].
    apply in_or_app. right. left. reflexivity.
  - intros Hg. destruct (IH k p Hg) as [-> Hin]. split; [reflexivity|].
    apply in_or_app. left. exact Hin.
Qed.

Lemma current_length (ps : list position) : length (current ps) <= length ps.
Proof.
  induction ps as [|q ps IH] using rev_ind; [cbn; lia|].
  rewrite current_snoc, length_app. change (length [q]) with 1.
  pose proof (dict_set_length (pkey (p_symbol q) (p_side q)) q (current ps)). lia.
Qed.

(** X4: the dict [cur] that a cycle builds holds every position under its
    own key [pkey(symbol, side)] and nothing else; of several positions
    with one key the last one stays; every position of the list is
    represented by an entry of its symbol and side; the keys are distinct
    and there are at most as many entries as positions. *)
Theorem current_holds_the_positions (ps : list position) :
  (forall k p, dict_get (current ps) k = Some p ->
     k = pkey (p_symbol p) (p_side p) /\ In p ps) /\
  (forall p, dict_get (current (ps ++ [p])) (pkey (p_symbol p) (p_side p)) = Some p) /\
  (forall p, In p ps ->
     exists p', dict_get (current ps) (pkey (p_symbol p) (p_side p)) = Some p' /\
                p_symbol p' = p_symbol p /\ p_side p' = p_side p) /\
  NoDup (current ps).*1 /\
  length (current ps) <= length ps.
Proof.
  split; [apply current_entries|]. split; [|split; [|split]].
  - intros p. rewrite current_snoc, dict_get_set, String.eqb_refl. reflexivity.
  - induction ps as [|q ps IH] using rev_ind; [intros p []|].
    intros p Hin. rewrite current_snoc, dict_get_set.
    destruct (String.eqb _ _) eqn:Hk.
    + apply String.eqb_eq, pkey_injective in Hk. destruct Hk as [Hs Hd].
      exists q. auto.
    + apply in_app_or in Hin. destruct Hin as [Hin|[<-|[]]].
      * apply IH, Hin.
      * rewrite String.eqb_refl in Hk. discriminate.
  - apply current_NoDup.
  - apply current_length.
Qed.

End SnapshotFacts.

Lemma current_holds_the_positions_witness :
  exists p, dict_get (Sample.snapshot_of Sample.three) "ETH-USDT|Short" = Some p /\
            "ETH-USDT|Short" = pkey (p_symbol p) (p_side p).
Proof.
  destruct (dict_get (Sample.snapshot_of Sample.three) "ETH-USDT|Short") as [p|] eqn:Hg;
    [|vm_compute in Hg; discriminate].
  exists p. split; [reflexivity|].
  apply (proj1 (current_holds_the_positions
                  (fetch_positions (H := Sample.runtime) Sample.three))
           "ETH-USDT|Short" p Hg).
Defined.

(** ** The comparison of quantities *)

Lemma eps_value : EPS = Fin (1 # 10 ^ 12).
Proof. reflexivity. Qed.

(** The two guards exclude one another. *)
Lemma guards_exclusive (q0 q1 : float) :
  fltb (fadd q0 EPS) q1 = true -> fltb (fadd q1 EPS) q0 = false.
Proof.
  rewrite eps_value.
  destruct q0 as [a| | |], q1 as [b| | |]; cbn; try reflexivity; try discriminate.
  intros Hlt. apply negb_true_iff in Hlt. apply negb_false_iff.
  apply Qle_bool_iff. rewrite Qred_correct.
  destruct (Qlt_le_dec (Qred (a + (1 # 10 ^ 12))) b) as [Hab|Hab].
  - rewrite Qred_correct in Hab.
    assert (0 < 1 # 10 ^ 12)%Q by reflexivity. lra.
  - apply Qle_bool_iff in Hab. rewrite Hab in Hlt. discriminate.
Qed.

(** X5: the classification of a change of quantity is antisymmetric:
    comparing the two quantities the other way round turns an increase
    into a decrease and a decrease into an increase, and leaves "no change"
    as it is.  In particular no pair of quantities passes both guards. *)
Theorem qty_event_swap (q0 q1 : float) :
  qty_event q1 q0 =
  match qty_event q0 q1 with
  | Added => Reduced
  | Reduced => Added
  | Unchanged => Unchanged
  end.
Proof.
  unfold qty_event, fgtb.
  destruct (fltb (fadd q0 EPS) q1) eqn:Ha.
  - rewrite (guards_exclusive q0 q1 Ha). reflexivity.
  - destruct (fltb (fadd q1 EPS) q0); reflexivity.
Qed.

(** ** Settlement *)

Lemma starts_with_refl (s : string) : starts_with s s = true.
Proof. induction s as [|c s IH]; cbn; [reflexivity|]. rewrite Ascii.eqb_refl. exact IH. Qed.


Section SettlementMore.
Context `{PyRuntime} (E : env).

Lemma income_sums_all_foreign (symbol : string) (recs : list raw) :
  Forall (fun r => foreign (alnum_upper symbol) r = true) recs ->
  income_sums symbol recs = (zero, zero, zero).
Proof.
  unfold income_sums. generalize (zero, zero, zero).
  induction recs as [|r recs IH]; intros acc Hall; [reflexivity|].
  apply Forall_cons in Hall. destruct Hall as [Hr Hall]. cbn [fold_left].
  rewrite income_step_foreign by exact Hr. apply IH, Hall.
Qed.

(** X6: when the settlement source returns records and the filter excludes
    every one of them, [_income_split] still answers, with three zero
    sums, and [fee_calc] returns zero closed PnL, zero fee and funding and
    zero realized: the estimate it was given and the fee model of the
    fall-back are not used. *)
Theorem all_foreign_settles_to_zero (symbol : string) (st en : Z)
    (closed entry_v exit_v : float) :
  fetch_income E symbol st en <> [] ->
  Forall (fun r => foreign (alnum_upper symbol) r = true) (fetch_income E symbol st en) ->
  _income_split E symbol st en = Some (zero, zero, zero) /\
  fee_calc E symbol st en closed entry_v exit_v = (zero, zero, zero).
Proof.
  intros Hne Hall.
  assert (Hs : _income_split E symbol st en = Some (zero, zero, zero)).
  { unfold _income_split. pose proof (income_sums_all_foreign symbol _ Hall) as Hz.
    destruct (fetch_income E symbol st en); [congruence|]. rewrite Hz. reflexivity. }
  split; [exact Hs|]. unfold fee_calc. rewrite Hs. reflexivity.
Qed.


(** X8: in the fall-back, with a fee rate that is not negative and finite
    entry and exit values, the estimated fee and funding is never positive
    and the realized value never exceeds the estimate of the closed PnL. *)
Theorem fallback_fee_is_a_cost (symbol : string) (st en : Z) (closed entry_v exit_v rate : Q) :
  fetch_income E symbol st en = [] ->
  TAKER_FEE_RATE E = Fin rate -> (0 <= rate)%Q ->
  exists ff real,
    fee_calc E symbol st en (Fin closed) (Fin entry_v) (Fin exit_v) = (Fin closed, Fin ff, Fin real) /\
    (ff <= 0)%Q /\ (real <= closed)%Q /\
    fleb (Fin ff) zero = true /\ fleb (Fin real) (Fin closed) = true.
Proof.
  intros Hrecs Hrate Hpos.
  unfold fee_calc, _income_split. rewrite Hrecs, Hrate. cbn [fabs fadd fneg fmul fin].
  eexists. eexists. split; [reflexivity|].
  pose proof (Qabs_nonneg entry_v) as He. pose proof (Qabs_nonneg exit_v) as Hx.
  assert (Hcost : (0 <= (Qabs entry_v + Qabs exit_v) * rate)%Q)
    by (apply Qmult_le_0_compat; lra).
  split; [|split; [|split]].
  - rewrite !Qred_correct. lra.
  - rewrite !Qred_correct. lra.
  - rewrite zero_eq. cbn. apply Qle_bool_iff. rewrite !Qred_correct. lra.
  - cbn. apply Qle_bool_iff. rewrite !Qred_correct. lra.
Qed.

End SettlementMore.

Lemma all_foreign_settles_to_zero_witness :
  fee_calc (H := Sample.runtime) (Sample.env_of [Sample.eth_record]) "BTCUSDT" 0 1
    (of_Z 100) (of_Z 1000) (of_Z 1100) = (zero, zero, zero).
Proof.
  apply (all_foreign_settles_to_zero (H := Sample.runtime) (Sample.env_of [Sample.eth_record])
           "BTCUSDT" 0 1 (of_Z 100) (of_Z 1000) (of_Z 1100)).
  - discriminate.
  - repeat constructor.
Defined.


Lemma fallback_fee_is_a_cost_witness :
  exists ff real,
    fee_calc (H := Sample.runtime) (Sample.env_of []) "BTCUSDT" 0 1
      (Fin 100) (Fin 1000) (Fin 1100) = (Fin 100, Fin ff, Fin real) /\
    (ff <= 0)%Q /\ (real <= 100)%Q.
Proof.
  destruct (fallback_fee_is_a_cost (H := Sample.runtime) (Sample.env_of []) "BTCUSDT" 0 1
              100 1000 1100 (1 # 2000)) as (ff & real & Hf & Hff & Hr & _).
  - reflexivity.
  - reflexivity.
  - discriminate.
  - exists ff, real. auto.
Defined.

(** ** The events of a cycle *)

Lemma filter_cons_length {A} (f : A -> bool) (a : A) (l : list A) :
  length (List.filter f (a :: l)) = (if f a then 1 else 0) + length (List.filter f l).
Proof. cbn. destruct (f a); reflexivity. Qed.

Section CountFacts.
Context `{PyRuntime} (E : env).

(** What one turn of the first loop adds to the counts and to the alerts. *)
Lemma open_or_change_counts (send_alert : bool) (prev : snapshot) (ev : events)
    (kp : string * position) (w : world) :
  let r := open_or_change E send_alert prev ev kp w in
  let n_open := if opened prev kp then 1 else 0 in
  let n_add := if changed_as is_added prev kp then 1 else 0 in
  let n_reduce := if changed_as is_reduced prev kp then 1 else 0 in
  ev_open r.1 = ev_open ev + n_open /\ ev_add r.1 = ev_add ev + n_add /\
  ev_reduce r.1 = ev_reduce ev + n_reduce /\ ev_close r.1 = ev_close ev /\
  length (w_outbox r.2) =
    length (w_outbox w) + (if send_alert then n_open + n_add + n_reduce else 0).
Proof.
  destruct kp as [k p]. unfold open_or_change, opened, changed_as, dict_mem. cbn [fst snd].
  destruct (dict_get prev k) as [o|].
  - unfold bind, sess_get, cmd_get, cmd.
    destruct (w_up w (length (w_log w))), (db_sess (w_store w) !! k),
      (qty_event (p_qty o) (p_qty p)), send_alert; cbn; repeat split; lia.
  - destruct send_alert; cbn; repeat split; lia.
Qed.

Lemma open_loop_counts (send_alert : bool) (prev : snapshot) (l : snapshot)
    (ev : events) (w : world) :
  let r := foldM (open_or_change E send_alert prev) ev l w in
  let n_open := length (List.filter (opened prev) l) in
  let n_add := length (List.filter (changed_as is_added prev) l) in
  let n_reduce := length (List.filter (changed_as is_reduced prev) l) in
  ev_open r.1 = ev_open ev + n_open /\ ev_add r.1 = ev_add ev + n_add /\
  ev_reduce r.1 = ev_reduce ev + n_reduce /\ ev_close r.1 = ev_close ev /\
  length (w_outbox r.2) =
    length (w_outbox w) + (if send_alert then n_open + n_add + n_reduce else 0).
Proof.
  revert ev w. induction l as [|kp l IH]; intros ev w.
  { cbn. destruct send_alert; repeat split; lia. }
  cbn [foldM]. unfold bind.
  pose proof (open_or_change_counts send_alert prev ev kp w) as Hstep.
  destruct (open_or_change E send_alert prev ev kp w) as [ev1 w1].
  cbn [fst snd] in Hstep. cbv zeta in Hstep.
  destruct Hstep as (H1 & H2 & H3 & H4 & H5).
  specialize (IH ev1 w1). cbv zeta in IH. destruct IH as (I1 & I2 & I3 & I4 & I5).
  cbv zeta. rewrite !filter_cons_length.
  rewrite I1, I2, I3, I4, I5, H1, H2, H3, H4, H5.
  destruct send_alert; repeat split; lia.
Qed.

(** What one turn of the second loop adds to the count of closes, to the
    rows and to the alerts. *)
Lemma close_gone_counts (send_alert : bool) (cur : snapshot) (ev : events)
    (rows : list trade) (ko : string * position) (w : world) :
  let r := close_gone E send_alert cur (ev, rows) ko w in
  let n := if gone cur ko then 1 else 0 in
  ev_open r.1.1 = ev_open ev /\ ev_add r.1.1 = ev_add ev /\
  ev_reduce r.1.1 = ev_reduce ev /\ ev_close r.1.1 = ev_close ev + n /\
  length r.1.2 = length rows + n /\
  length (w_outbox r.2) = length (w_outbox w) + (if send_alert then n else 0).
Proof.
  destruct ko as [k o]. unfold close_gone, gone. cbn [fst snd].
  destruct (dict_mem k cur).
  - cbn. destruct send_alert; repeat split; lia.
  - unfold bind, sess_get, cmd_get, cmd.
    destruct (w_up w (length (w_log w))), (db_sess (w_store w) !! k), send_alert;
      cbn -[close_row fee_calc closed_estimate]; rewrite ?length_app; cbn [length];
      repeat split; lia.
Qed.

Lemma close_loop_counts (send_alert : bool) (cur : snapshot) (l : snapshot)
    (ev : events) (rows : list trade) (w : world) :
  let r := foldM (close_gone E send_alert cur) (ev, rows) l w in
  let n := length (List.filter (gone cur) l) in
  ev_open r.1.1 = ev_open ev /\ ev_add r.1.1 = ev_add ev /\
  ev_reduce r.1.1 = ev_reduce ev /\ ev_close r.1.1 = ev_close ev + n /\
  length r.1.2 = length rows + n /\
  length (w_outbox r.2) = length (w_outbox w) + (if send_alert then n else 0).
Proof.
  revert ev rows w. induction l as [|ko l IH]; intros ev rows w.
  { cbn. destruct send_alert; repeat split; lia. }
  cbn [foldM]. unfold bind.
  pose proof (close_gone_counts send_alert cur ev rows ko w) as Hstep.
  destruct (close_gone E send_alert cur (ev, rows) ko w) as [[ev1 rows1] w1].
  cbn [fst snd] in Hstep. cbv zeta in Hstep.
  destruct Hstep as (H1 & H2 & H3 & H4 & H5 & H6).
  specialize (IH ev1 rows1 w1). cbv zeta in IH.
  destruct IH as (I1 & I2 & I3 & I4 & I5 & I6).
  cbv zeta. rewrite !filter_cons_length.
  rewrite I1, I2, I3, I4, I5, I6, H1, H2, H3, H4, H5, H6.
  destruct send_alert; repeat split; lia.
Qed.

Lemma seed_session_outbox (u : unit) (kp : string * position) (w : world) :
  w_outbox (seed_session u kp w).2 = w_outbox w.
Proof. destruct kp as [k p]. reflexivity. Qed.

Lemma events_eq (e1 e2 : events) :
  ev_open e1 = ev_open e2 -> ev_add e1 = ev_add e2 -> ev_reduce e1 = ev_reduce e2 ->
  ev_close e1 = ev_close e2 -> e1 = e2.
Proof. destruct e1, e2. cbn. congruence. Qed.

(** The result of a cycle in terms of what its two reads returned. *)
Lemma cycle_counts (raws : list raw) (send_alert : bool) (w : world) :
  let cur := current (fetch_positions raws) in
  let prev := (open_state w).1 in
  let done := (init_done (open_state w).2).1 in
  let r := (process_positions E raws send_alert w).1 in
  let w' := (process_positions E raws send_alert w).2 in
  r_initial_sync r = negb done /\ r_positions_now r = length cur /\
  (done = true ->
     r_events r = expected_events prev cur /\
     length (r_closed_trades r) = ev_close (r_events r) /\
     length (w_outbox w') =
       length (w_outbox w) + (if send_alert then total_events (r_events r) else 0)) /\
  (done = false ->
     r_events r = no_events /\ r_closed_trades r = [] /\ w_outbox w' = w_outbox w).
Proof.
  cbv zeta. unfold process_positions, bind.
  assert (Ho : w_outbox (open_state w).2 = w_outbox w) by reflexivity.
  destruct (open_state w) as [prev w1]. cbn [fst snd] in *.
  assert (Hi : w_outbox (init_done w1).2 = w_outbox w1) by reflexivity.
  destruct (init_done w1) as [done w2]. cbn [fst snd] in *.
  destruct done; cbn [negb].
  - pose proof (open_loop_counts send_alert prev (current (fetch_positions raws))
                  no_events w2) as H1.
    destruct (foldM (open_or_change E send_alert prev) no_events _ w2) as [ev w3].
    pose proof (close_loop_counts send_alert (current (fetch_positions raws)) prev
                  ev [] w3) as H2.
    destruct (foldM (close_gone E send_alert _) (ev, []) prev w3) as [[ev' rows] w4].
    cbn [fst snd] in *. cbv zeta in H1, H2.
    destruct H1 as (A1 & A2 & A3 & A4 & A5). destruct H2 as (B1 & B2 & B3 & B4 & B5 & B6).
    unfold no_events in A1, A2, A3, A4.
    cbn [ev_open ev_add ev_reduce ev_close length] in A1, A2, A3, A4, B5.
    cbn. split; [reflexivity|]. split; [reflexivity|]. split; [|discriminate].
    intros _. split; [|split].
    + apply events_eq; cbn [expected_events ev_open ev_add ev_reduce ev_close]; lia.
    + lia.
    + unfold total_events. rewrite B6, A5, Hi, Ho.
      destruct send_alert; lia.
  - unfold initial_sync, bind.
    pose proof (foldM_invariant seed_session (fun _ w0 => w_outbox w0 = w_outbox w2)
                  (current (fetch_positions raws))
                  (fun s a w0 _ Hs => eq_trans (seed_session_outbox s a w0) Hs)
                  tt w2 eq_refl) as H3.
    destruct (foldM seed_session tt _ w2) as [u w3]. cbn [fst snd] in H3.
    cbn. split; [reflexivity|]. split; [reflexivity|]. split; [discriminate|].
    intros _. repeat split. congruence.
Qed.

End CountFacts.

Section CycleShape.
Context `{PyRuntime} (E : env).

(** X9: the counts that a cycle returns are decided by the snapshot it
    read and the current one alone, whatever the store does afterwards:
    on the initial synchronisation they are zero; otherwise [open] counts
    the current keys that the snapshot read does not hold, [add] and
    [reduce] the keys of both whose quantity passes the one or the other
    guard, [close] the keys read that are no longer current.  The cycle
    returns one trade per close and the number of entries of the current
    snapshot as [positions_now]. *)
Theorem events_follow_the_snapshots (raws : list raw) (send_alert : bool) (w : world) :
  let cur := current (fetch_positions raws) in
  let prev := (open_state w).1 in
  let done := (init_done (open_state w).2).1 in
  let r := (process_positions E raws send_alert w).1 in
  r_initial_sync r = negb done /\
  r_events r = (if done then expected_events prev cur else no_events) /\
  length (r_closed_trades r) = ev_close (r_events r) /\
  r_positions_now r = length cur.
Proof.
  cbv zeta. pose proof (cycle_counts E raws send_alert w) as Hc. cbv zeta in Hc.
  destruct Hc as (Hs & Hn & Ht & Hf).
  destruct ((init_done (open_state w).2).1).
  - destruct (Ht eq_refl) as (He & Hl & _). auto.
  - destruct (Hf eq_refl) as (He & Hl & _). rewrite He, Hl. auto.
Qed.


Lemma seed_loop_log_grows (l : snapshot) (w : world) (e : command * bool) :
  In e (w_log w) -> In e (w_log (foldM seed_session tt l w).2).
Proof.
  revert w. induction l as [|[k p] l IH]; intros w Hin; [exact Hin|].
  cbn [foldM]. unfold bind.
  assert (H1 : In e (w_log (seed_session tt (k, p) w).2)) by (right; exact Hin).
  destruct (seed_session tt (k, p) w) as [[] w1]. apply IH, H1.
Qed.

Lemma seed_loop_requests (l : snapshot) (w : world) (k : string) (p : position) :
  In (k, p) l ->
  exists t b, In (SetSess k (new_session p t), b) (w_log (foldM seed_session tt l w).2).
Proof.
  revert w. induction l as [|[k0 p0] l IH]; intros w Hin; [destruct Hin|].
  cbn [foldM]. unfold bind.
  destruct Hin as [[= -> ->]|Hin].
  - assert (H1 : In (SetSess k (new_session p (w_clock w (w_ticks w))),
                     w_up w (length (w_log w)))
                   (w_log (seed_session tt (k, p) w).2)) by (left; reflexivity).
    destruct (seed_session tt (k, p) w) as [[] w1].
    eexists. eexists. apply seed_loop_log_grows, H1.
  - destruct (seed_session tt (k0, p0) w) as [[] w1]. apply IH, Hin.
Qed.

(** X11: when the read of the flag [state:init_done] fails, the cycle takes
    the branch of the initial synchronisation although the store may have
    been synchronised long before: it counts no event, returns no trade,
    sends nothing, and asks the store to replace the session record of
    every current key by a freshly seeded one. *)
Theorem failed_flag_read_resynchronises (raws : list raw) (send_alert : bool) (w : world) :
  w_up w (S (length (w_log w))) = false ->
  let cur := current (fetch_positions raws) in
  let r := (process_positions E raws send_alert w).1 in
  let w' := (process_positions E raws send_alert w).2 in
  r_initial_sync r = true /\ r_events r = no_events /\ r_closed_trades r = [] /\
  w_outbox w' = w_outbox w /\
  forall k p, dict_get cur k = Some p ->
    exists t b, In (SetSess k (new_session p t), b) (w_log w').
Proof.
  intros Hdown. cbv zeta.
  pose proof (cycle_counts E raws send_alert w) as Hc. cbv zeta in Hc.
  destruct Hc as (Hs & _ & _ & Hf).
  assert (Hdone : (init_done (open_state w).2).1 = false).
  { cbn. rewrite Hdown. reflexivity. }
  rewrite Hdone in Hs. destruct (Hf Hdone) as (He & Hr & Ho).
  repeat split; try assumption.
  intros k p Hg. apply dict_get_In in Hg.
  unfold process_positions, bind.
  destruct (open_state w) as [prev w1]. cbn [fst snd] in Hdone.
  destruct (init_done w1) as [done w2]. cbn [fst] in Hdone. subst done. cbn [negb].
  unfold initial_sync, bind.
  destruct (seed_loop_requests _ w2 k p Hg) as (t & b & Hin).
  destruct (foldM seed_session tt _ w2) as [u w3]. cbn [snd] in Hin.
  exists t, b. cbn. right. right. exact Hin.
Qed.





End CycleShape.

Lemma failed_flag_read_resynchronises_witness :
  let res := process_positions (H := Sample.runtime) (Sample.env_of []) [Sample.btc "LONG"] true
               (Sample.world_of Sample.after_sync Sample.second_fails) in
  r_initial_sync res.1 = true /\ r_events res.1 = no_events /\ w_outbox res.2 = [].
Proof.
  destruct (failed_flag_read_resynchronises (H := Sample.runtime) (Sample.env_of [])
              [Sample.btc "LONG"] true
              (Sample.world_of Sample.after_sync Sample.second_fails))
    as (Hs & He & _ & Ho & _).
  - reflexivity.
  - cbv zeta. split; [exact Hs|]. split; [exact He|exact Ho].
Defined.


(** ** The figures of a trade *)

Lemma round_half_even_Z (z : Z) : round_half_even (inject_Z z) = z.
Proof.
  unfold round_half_even. rewrite Qfloor_Z.
  destruct (Qcompare (inject_Z z - inject_Z z) (1 # 2)) eqn:Hc; [|reflexivity|].
  - apply Qeq_alt in Hc. exfalso. lra.
  - apply Qgt_alt in Hc. exfalso. lra.
Qed.

(** Rounding what is rounded changes nothing. *)
Lemma round8_idempotent (x : float) : round8 (round8 x) = round8 x.
Proof.
  destruct x as [q| | |]; try reflexivity.
  cbn [round8 fin]. f_equal. f_equal.
  set (n := round_half_even (q * inject_Z (10 ^ 8))).
  assert (Hn : round_half_even (Qred (inject_Z n / inject_Z (10 ^ 8)) * inject_Z (10 ^ 8)) = n).
  { rewrite <- (round_half_even_Z n) at 2. apply round_half_even_comp.
    rewrite Qred_correct. field. discriminate. }
  rewrite Hn. reflexivity.
Qed.

Section FigureFacts.
Context `{PyRuntime} (E : env).

(** X14: the three results of every row that a cycle returns carry at most
    eight decimals: rounding them again to eight decimals leaves them as
    they are, and a finite one is a whole number of hundred-millionths. *)
Theorem figures_have_eight_decimals (raws : list raw) (send_alert : bool) (w : world)
    (row : trade) :
  In row (r_closed_trades (process_positions E raws send_alert w).1) ->
  (round8 (t_closed_pnl row) = t_closed_pnl row /\
   round8 (t_fee_funding row) = t_fee_funding row /\
   round8 (t_realized row) = t_realized row) /\
  (forall q, t_closed_pnl row = Fin q \/ t_fee_funding row = Fin q \/ t_realized row = Fin q ->
     exists n : Z, (q == inject_Z n / inject_Z (10 ^ 8))%Q).
Proof.
  intros Hin.
  destruct (closed_trades_settled E raws send_alert w row Hin)
    as (st & en & c & ff & real & _ & Hc & Hff & Hr).
  split.
  - rewrite Hc, Hff, Hr, !round8_idempotent. auto.
  - assert (Hgrid : forall x q, round8 x = Fin q ->
                      exists n : Z, (q == inject_Z n / inject_Z (10 ^ 8))%Q).
    { intros [a| | |] q; cbn [round8 fin]; try discriminate.
      intros [= <-]. eexists. apply Qred_correct. }
    intros q [Hq|[Hq|Hq]]; [rewrite Hc in Hq|rewrite Hff in Hq|rewrite Hr in Hq];
      apply (Hgrid _ _ Hq).
Qed.

End FigureFacts.

Lemma figures_have_eight_decimals_witness :
  round8 (t_realized (Sample.closing_row "LONG" [Sample.tiny_pnl; Sample.tiny_fee])) =
  t_realized (Sample.closing_row "LONG" [Sample.tiny_pnl; Sample.tiny_fee]).
Proof.
  apply (figures_have_eight_decimals (H := Sample.runtime)
           (Sample.env_of [Sample.tiny_pnl; Sample.tiny_fee]) [] false
           (Sample.world_of (Sample.synced (Sample.snapshot_of [Sample.btc "LONG"]))
              Sample.always)
           (Sample.closing_row "LONG" [Sample.tiny_pnl; Sample.tiny_fee])).
  vm_compute. left. reflexivity.
Defined.

(** ** The ledger after a cycle *)

Section LedgerFacts.
Context `{PyRuntime} (E : env).

(** Over a store that answers, a turn of the first loop writes the record
    [turn_session] under its key and changes nothing else in the store. *)
Lemma open_or_change_store (send_alert : bool) (prev : snapshot) (ev : events)
    (k : string) (p : position) (w : world) :
  store_up w ->
  let w' := (open_or_change E send_alert prev ev (k, p) w).2 in
  w_up w' = w_up w /\
  w_store w' =
    apply_command
      (SetSess k (turn_session (dict_get prev k) p (db_sess (w_store w) !! k)
                    (w_clock w (w_ticks w))))
      (w_store w).
Proof.
  intros Hup. unfold open_or_change, turn_session, bumped.
  destruct (dict_get prev k) as [o|].
  - unfold bind, sess_get, cmd_get. rewrite cmd_up by exact Hup.
    destruct (db_sess (w_store w) !! k), (qty_event (p_qty o) (p_qty p)), send_alert;
      cbn; rewrite ?Hup; split; reflexivity.
  - destruct send_alert; cbn; rewrite ?Hup; split; reflexivity.
Qed.

Lemma open_loop_store (send_alert : bool) (prev : snapshot) (l : snapshot)
    (ev : events) (w : world) :
  store_up w -> NoDup l.*1 ->
  let w' := (foldM (open_or_change E send_alert prev) ev l w).2 in
  store_up w' /\
  db_init_done (w_store w') = db_init_done (w_store w) /\
  db_open_positions (w_store w') = db_open_positions (w_store w) /\
  db_hist (w_store w') = db_hist (w_store w) /\
  (forall k p, In (k, p) l ->
     exists t, db_sess (w_store w') !! k =
               Some (turn_session (dict_get prev k) p (db_sess (w_store w) !! k) t)) /\
  (forall k, ~ In k l.*1 -> db_sess (w_store w') !! k = db_sess (w_store w) !! k).
Proof.
  revert ev w. induction l as [|[k p] l IH]; intros ev w Hup Hnd.
  { cbn. repeat split; try assumption; try reflexivity. intros k p []. }
  cbn [foldM]. unfold bind.
  pose proof (open_or_change_store send_alert prev ev k p w Hup) as Hstep.
  destruct (open_or_change E send_alert prev ev (k, p) w) as [ev1 w1].
  cbn [snd] in Hstep. cbv zeta in Hstep. destruct Hstep as [Hu1 Hs1].
  apply NoDup_cons in Hnd. destruct Hnd as [Hk Hnd].
  assert (Hup1 : store_up w1) by (intros n; rewrite Hu1; apply Hup).
  destruct (IH ev1 w1 Hup1 Hnd) as (Hu & Hi & Hop & Hh & Hin & Hout).
  rewrite Hs1 in Hi, Hop, Hh, Hin, Hout. cbn in Hi, Hop, Hh.
  repeat split; try assumption.
  - intros k' p' [[= <- <-]|Hin'].
    + exists (w_clock w (w_ticks w)).
      rewrite Hout by (intros Hc; apply Hk, list_elem_of_In, Hc).
      cbn. apply lookup_insert_eq.
    + destruct (Hin k' p' Hin') as [t Ht]. exists t. rewrite Ht. cbn.
      rewrite lookup_insert_ne; [reflexivity|].
      intros ->. apply Hk, list_elem_of_In, (in_map fst _ (k', p')), Hin'.
  - intros k' Hn. rewrite Hout by (intros Hc; apply Hn; right; exact Hc).
    cbn. apply lookup_insert_ne. intros ->. apply Hn. left. reflexivity.
Qed.

(** Over a store that answers, a turn of the second loop deletes the record
    of a key that is gone and leaves the records of all other keys, the
    snapshot and the flag as they are. *)
Lemma close_gone_store (send_alert : bool) (cur : snapshot) (acc : events * list trade)
    (k : string) (o : position) (w : world) :
  store_up w ->
  let w' := (close_gone E send_alert cur acc (k, o) w).2 in
  w_up w' = w_up w /\
  db_init_done (w_store w') = db_init_done (w_store w) /\
  db_open_positions (w_store w') = db_open_positions (w_store w) /\
  db_sess (w_store w') =
    (if dict_mem k cur then db_sess (w_store w) else delete k (db_sess (w_store w))).
Proof.
  intros Hup. destruct acc as [ev rows]. unfold close_gone.
  destruct (dict_mem k cur); [repeat split|].
  unfold bind, sess_get, cmd_get. rewrite cmd_up by exact Hup.
  destruct (db_sess (w_store w) !! k), send_alert;
    cbn -[close_row fee_calc closed_estimate]; rewrite ?Hup;
    cbn -[close_row fee_calc closed_estimate]; repeat split.
Qed.

Lemma close_loop_store (send_alert : bool) (cur : snapshot) (l : snapshot)
    (acc : events * list trade) (w : world) :
  store_up w ->
  let w' := (foldM (close_gone E send_alert cur) acc l w).2 in
  store_up w' /\
  db_init_done (w_store w') = db_init_done (w_store w) /\
  db_open_positions (w_store w') = db_open_positions (w_store w) /\
  (forall k, db_sess (w_store w) !! k = None -> db_sess (w_store w') !! k = None) /\
  (forall k, dict_mem k cur = false -> In k l.*1 -> db_sess (w_store w') !! k = None) /\
  (forall k, dict_mem k cur = true \/ ~ In k l.*1 ->
     db_sess (w_store w') !! k = db_sess (w_store w) !! k).
Proof.
  revert acc w. induction l as [|[k o] l IH]; intros acc w Hup.
  { cbn. repeat split; try assumption; try reflexivity; tauto. }
  cbn [foldM]. unfold bind.
  pose proof (close_gone_store send_alert cur acc k o w Hup) as Hstep.
  destruct (close_gone E send_alert cur acc (k, o) w) as [acc1 w1].
  cbn [snd] in Hstep. cbv zeta in Hstep. destruct Hstep as (Hu1 & Hi1 & Hop1 & Hs1).
  assert (Hup1 : store_up w1) by (intros n; rewrite Hu1; apply Hup).
  destruct (IH acc1 w1 Hup1) as (Hu & Hi & Hop & Hnone & Hdel & Hkeep).
  split; [exact Hu|]. split; [congruence|]. split; [congruence|].
  split; [|split].
  - intros k' Hk'. apply Hnone. rewrite Hs1.
    destruct (dict_mem k cur); [exact Hk'|].
    destruct (decide (k = k')) as [->|Hne];
      [apply lookup_delete_eq|rewrite lookup_delete_ne by exact Hne; exact Hk'].
  - intros k' Hc [Hhead|Hin'].
    + cbn in Hhead. subst k'. apply Hnone. rewrite Hs1, Hc. apply lookup_delete_eq.
    + apply Hdel; assumption.
  - intros k' Hk'.
    destruct (dict_mem k' cur) eqn:Hc.
    + rewrite Hkeep by (left; exact Hc). rewrite Hs1.
      destruct (dict_mem k cur) eqn:Hkc; [reflexivity|].
      apply lookup_delete_ne. intros ->. congruence.
    + destruct Hk' as [Hk'|Hk']; [discriminate|].
      rewrite Hkeep by (right; intros Hin; apply Hk'; right; exact Hin).
      rewrite Hs1. destruct (dict_mem k cur); [reflexivity|].
      apply lookup_delete_ne. intros ->. apply Hk'. left. reflexivity.
Qed.

(** The store after a cycle past the initial synchronisation, over a store
    that answers. *)
Lemma ledger_after_cycle (raws : list raw) (send_alert : bool) (w : world) :
  store_up w -> db_init_done (w_store w) = Some "1" ->
  let cur := current (fetch_positions raws) in
  let prev := default [] (db_open_positions (w_store w)) in
  let w' := (process_positions E raws send_alert w).2 in
  db_init_done (w_store w') = Some "1" /\
  db_open_positions (w_store w') = Some cur /\
  (forall k p, dict_get cur k = Some p ->
     exists t, db_sess (w_store w') !! k =
               Some (turn_session (dict_get prev k) p (db_sess (w_store w) !! k) t)) /\
  (forall k, dict_get cur k = None -> dict_mem k prev = true ->
     db_sess (w_store w') !! k = None) /\
  (forall k, dict_get cur k = None -> dict_mem k prev = false ->
     db_sess (w_store w') !! k = db_sess (w_store w) !! k).
Proof.
  intros Hup Hflag. cbv zeta.
  unfold process_positions, open_state, init_done, cmd_get, bind.
  rewrite cmd_up by exact Hup. cbn [ret].
  set (w1 := {| w_store := _ |}).
  assert (Hup1 : store_up w1) by exact Hup.
  rewrite cmd_up by exact Hup1. cbn [ret].
  set (w2 := {| w_store := _ |}).
  assert (Hup2 : store_up w2) by exact Hup.
  change (db_init_done (w_store w1)) with (db_init_done (w_store w)).
  rewrite Hflag. change (default "" (Some "1")) with "1".
  change (String.eqb "1" "1") with true. cbn [negb]. cbv beta.
  set (cur := current (fetch_positions raws)).
  set (prev := default [] (db_open_positions (w_store w))).
  pose proof (open_loop_store send_alert prev cur no_events w2 Hup2 (current_NoDup _))
    as (Hu3 & Hi3 & Hop3 & _ & Hin3 & Hout3).
  destruct (foldM (open_or_change E send_alert prev) no_events cur w2) as [ev w3].
  cbn [snd] in *.
  pose proof (close_loop_store send_alert cur prev (ev, []) w3 Hu3)
    as (Hu4 & Hi4 & Hop4 & Hnone4 & Hdel4 & Hkeep4).
  destruct (foldM (close_gone E send_alert cur) (ev, []) prev w3) as [[ev' rows] w4].
  cbn [snd] in *.
  unfold save_open_state, bind, ret. rewrite cmd_up by exact Hu4. cbn.
  split; [rewrite Hi4, Hi3; exact Hflag|]. split; [reflexivity|].
  split; [|split].
  - intros k p Hg. destruct (Hin3 k p (dict_get_In _ _ _ Hg)) as [t Ht].
    exists t. rewrite Hkeep4 by (left; unfold dict_mem; rewrite Hg; reflexivity).
    exact Ht.
  - intros k Hg Hp. apply Hdel4; [unfold dict_mem; rewrite Hg; reflexivity|].
    unfold dict_mem in Hp. destruct (dict_get prev k) as [o|] eqn:Ho; [|discriminate].
    apply (in_map fst _ (k, o)), dict_get_In, Ho.
  - intros k Hg Hp.
    rewrite Hkeep4.
    + apply Hout3, dict_get_None, Hg.
    + right. apply dict_get_None. unfold dict_mem in Hp.
      destruct (dict_get prev k); [discriminate|reflexivity].
Qed.

End LedgerFacts.

Lemma fleb_refl (x : float) : x = NaN \/ fleb x x = true.
Proof.
  destruct x as [q| | |]; [right|right|right|left]; try reflexivity.
  cbn. apply Qle_bool_iff, Qle_refl.
Qed.

(** Adding [max(x, 0.0)] to a total yields NaN or a value that is not below
    the total. *)
Lemma total_grows (s x : float) :
  fadd s (pymax x zero) = NaN \/ fleb s (fadd s (pymax x zero)) = true.
Proof.
  unfold pymax, fgtb. rewrite zero_eq.
  destruct x as [q| | |]; cbn [fltb].
  - destruct (Qle_bool 0 q) eqn:Hq; cbn [negb].
    + apply Qle_bool_iff in Hq.
      destruct s as [a| | |]; cbn; [right|right|right|left]; try reflexivity.
      apply Qle_bool_iff. rewrite Qred_correct. lra.
    + destruct s as [a| | |]; cbn; [right|right|right|left]; try reflexivity.
      apply Qle_bool_iff. rewrite Qred_correct. lra.
  - destruct s as [a| | |]; cbn; [right|right|left|left]; reflexivity.
  - destruct s as [a| | |]; cbn; [right|right|right|left]; try reflexivity.
    apply Qle_bool_iff. rewrite Qred_correct. lra.
  - left. destruct s; reflexivity.
Qed.

Section LedgerTheorems.
Context `{PyRuntime} (E : env).



(** X16: over a store that answers, a cycle never lowers the totals of a
    session record that stays open: the record of a key of both snapshots
    keeps its symbol, side, start and initial entry price, each of its two
    totals is afterwards NaN or not below what it was, and at most one of
    the two is changed. *)
Theorem totals_never_decrease (raws : list raw) (send_alert : bool) (w : world)
    (k : string) (p o : position) (s : session) :
  store_up w -> db_init_done (w_store w) = Some "1" ->
  dict_get (current (fetch_positions raws)) k = Some p ->
  dict_get (default [] (db_open_positions (w_store w))) k = Some o ->
  db_sess (w_store w) !! k = Some s ->
  exists s', db_sess (w_store (process_positions E raws send_alert w).2) !! k = Some s' /\
    s_symbol s' = s_symbol s /\ s_side s' = s_side s /\ s_start_ts s' = s_start_ts s /\
    s_entry_price_init s' = s_entry_price_init s /\
    (s_total_entry_value s' = NaN \/
     fleb (s_total_entry_value s) (s_total_entry_value s') = true) /\
    (s_total_exit_value s' = NaN \/
     fleb (s_total_exit_value s) (s_total_exit_value s') = true) /\
    (s_total_entry_value s' = s_total_entry_value s \/
     s_total_exit_value s' = s_total_exit_value s).
Proof.
  intros Hup Hflag Hcur Hprev Hs.
  destruct (ledger_after_cycle E raws send_alert w Hup Hflag) as (_ & _ & Hc & _ & _).
  destruct (Hc k p Hcur) as [t Ht]. rewrite Hprev, Hs in Ht.
  eexists. split; [exact Ht|].
  unfold turn_session, bumped.
  destruct (qty_event (p_qty o) (p_qty p)); cbn; repeat split;
    solve [apply total_grows|apply fleb_refl|left; reflexivity|right; reflexivity].
Qed.

End LedgerTheorems.


Lemma totals_never_decrease_witness :
  exists s s',
    db_sess Sample.after_sync !! "BTCUSDT|Long" = Some s /\
    db_sess (w_store (process_positions (H := Sample.runtime) (Sample.env_of [])
                        [Sample.btc_doubled] true
                        (Sample.world_of Sample.after_sync Sample.always)).2)
      !! "BTCUSDT|Long" = Some s' /\
    (s_total_entry_value s' = NaN \/
     fleb (s_total_entry_value s) (s_total_entry_value s') = true).
Proof.
  destruct (dict_get (current (fetch_positions (H := Sample.runtime) [Sample.btc_doubled]))
              "BTCUSDT|Long") as [p|] eqn:Hp; [|vm_compute in Hp; discriminate].
  destruct (dict_get (default [] (db_open_positions Sample.after_sync)) "BTCUSDT|Long")
    as [o|] eqn:Ho; [|vm_compute in Ho; discriminate].
  destruct (db_sess Sample.after_sync !! "BTCUSDT|Long") as [s|] eqn:Hs;
    [|vm_compute in Hs; discriminate].
  destruct (totals_never_decrease (H := Sample.runtime) (Sample.env_of [])
              [Sample.btc_doubled] true (Sample.world_of Sample.after_sync Sample.always)
              "BTCUSDT|Long" p o s) as (s' & Hs' & _ & _ & _ & _ & Hin & _).
  - intros n. reflexivity.
  - reflexivity.
  - exact Hp.
  - exact Ho.
  - exact Hs.
  - exists s, s'. auto.
Defined.

(** ** The history of trades *)

Section HistoryFacts.
Context `{PyRuntime}.

(** X17: over a store that answers, [hist_push] puts the row at the head of
    the list of the day of its close and keeps at most 5000 rows of that
    day, the earlier ones in their order behind the new one; nothing is
    dropped while the day holds fewer than 5000 rows, and the lists of the
    other days, the session records, the snapshot and the flag are left as
    they are. *)
Theorem hist_push_keeps_5000 (tr : trade) (w : world) :
  store_up w ->
  let d := kst_date (t_close_ts tr) in
  let old := default [] (db_hist (w_store w) !! d) in
  let st' := w_store (hist_push tr w).2 in
  (exists l, db_hist st' !! d = Some l /\
             l = take (Z.to_nat 5000) (tr :: old) /\
             hd_error l = Some tr /\
             (Z.of_nat (length l) <= 5000)%Z /\
             ((Z.of_nat (length old) < 5000)%Z -> l = tr :: old)) /\
  (forall d', d' <> d -> db_hist st' !! d' = db_hist (w_store w) !! d') /\
  db_sess st' = db_sess (w_store w) /\
  db_open_positions st' = db_open_positions (w_store w) /\
  db_init_done st' = db_init_done (w_store w).
Proof.
  intros Hup. cbv zeta. unfold hist_push, bind.
  rewrite cmd_up by exact Hup.
  set (w1 := {| w_store := _ |}).
  assert (Hup1 : store_up w1) by exact Hup.
  rewrite cmd_up by exact Hup1.
  set (d := kst_date (t_close_ts tr)).
  set (old := default [] (db_hist (w_store w) !! d)).
  assert (H1 : db_hist (w_store w1) !! d = Some (tr :: old)) by apply lookup_insert_eq.
  cbn [ret snd w_store apply_command db_hist db_sess db_open_positions db_init_done].
  rewrite H1.
  cbn [db_hist db_sess db_open_positions db_init_done].
  change (Z.to_nat (4999 - 0 + 1)) with (Z.to_nat 5000).
  change (drop (Z.to_nat 0) (tr :: old)) with (tr :: old).
  split; [|split; [|repeat split]].
  - exists (take (Z.to_nat 5000) (tr :: old)).
    split; [apply lookup_insert_eq|]. split; [reflexivity|].
    assert (Hn : Z.to_nat 5000 = S (Z.to_nat 4999)) by lia.
    split; [rewrite Hn; reflexivity|]. split.
    + rewrite length_take. lia.
    + intros Hlen. apply take_ge. cbn [length]. lia.
  - intros d' Hne.
    assert (Hne' : d <> d') by (intros Heq; apply Hne; symmetry; exact Heq).
    rewrite lookup_insert_ne by exact Hne'.
    subst w1. cbn. rewrite lookup_insert_ne by exact Hne'. reflexivity.
Qed.

End HistoryFacts.

Lemma hist_push_keeps_5000_witness :
  db_hist (w_store (hist_push (H := Sample.runtime) Sample.blank_row
                      (Sample.world_of Sample.fresh Sample.always)).2)
    !! "1970-01-01" = Some [Sample.blank_row].
Proof.
  destruct (hist_push_keeps_5000 (H := Sample.runtime) Sample.blank_row
              (Sample.world_of Sample.fresh Sample.always))
    as ((l & Hl & _ & _ & _ & Hall) & _).
  - intros n. reflexivity.
  - rewrite (Hall ltac:(vm_compute; reflexivity)) in Hl. exact Hl.
Defined.

(** ** [base_asset] *)

Lemma sapp_empty_r (s : string) : (s ++ "")%string = s.
Proof.
  induction s as [|c s IH]; [reflexivity|].
  change (String c (s ++ "")%string = String c s). f_equal. exact IH.
Qed.

Lemma starts_with_sapp (p t : string) : starts_with p (p ++ t)%string = true.
Proof.
  induction p as [|c p IH]; [reflexivity|].
  change (starts_with (String c p) (String c (p ++ t)%string) = true).
  cbn. rewrite Ascii.eqb_refl. exact IH.
Qed.

Lemma srev_onto_sapp (a b acc : string) :
  srev_onto (a ++ b)%string acc = srev_onto b (srev_onto a acc).
Proof.
  revert acc. induction a as [|c a IH]; intros acc; [reflexivity|].
  change (srev_onto (String c (a ++ b)%string) acc = srev_onto b (srev_onto a (String c acc))).
  cbn. apply IH.
Qed.

Lemma srev_onto_acc (s acc : string) : srev_onto s acc = (srev s ++ acc)%string.
Proof.
  unfold srev. revert acc. induction s as [|c s IH]; intros acc; [reflexivity|].
  cbn. rewrite IH, (IH (String c "")).
  clear IH. generalize (srev_onto s ""). intros r.
  induction r as [|x r IHr]; [reflexivity|].
  change (String x (r ++ String c acc)%string = String x ((r ++ String c "") ++ acc)%string).
  f_equal. exact IHr.
Qed.

Lemma srev_onto_twice (s acc acc' : string) :
  srev_onto (srev_onto s acc) acc' = srev_onto acc (s ++ acc')%string.
Proof.
  revert acc acc'. induction s as [|c s IH]; intros acc acc'; [reflexivity|].
  cbn [srev_onto]. rewrite IH. reflexivity.
Qed.

Lemma srev_involutive (s : string) : srev (srev s) = s.
Proof. unfold srev. rewrite srev_onto_twice. cbn. apply sapp_empty_r. Qed.

Lemma sdrop_split (n : nat) (s : string) : exists u, s = (u ++ sdrop n s)%string.
Proof.
  revert s. induction n as [|n IH]; intros s; [exists ""; reflexivity|].
  destruct s as [|c s]; [exists ""; reflexivity|].
  destruct (IH s) as [u Hu]. exists (String c u). cbn [sdrop].
  change (String c s = String c (u ++ sdrop n s)%string). f_equal. exact Hu.
Qed.

(** Dropping characters at the end leaves a beginning. *)
Lemma drop_last_prefix (n : nat) (s : string) : starts_with (drop_last n s) s = true.
Proof.
  unfold drop_last. destruct (sdrop_split n (srev s)) as [u Hu].
  assert (Hs : s = (srev (sdrop n (srev s)) ++ srev u)%string).
  { rewrite <- (srev_involutive s) at 1. rewrite Hu at 1.
    unfold srev at 1. rewrite srev_onto_sapp. apply srev_onto_acc. }
  rewrite Hs at 2. apply starts_with_sapp.
Qed.

Lemma before_prefix (sep : ascii) (s : string) : starts_with (before sep s) s = true.
Proof.
  induction s as [|c s IH]; [reflexivity|]. cbn.
  destruct (Ascii.eqb c sep); [reflexivity|]. cbn. rewrite Ascii.eqb_refl. exact IH.
Qed.

(** X18: the base asset of a symbol is a beginning of the symbol in upper
    case; and for a symbol that is not empty and holds none of the
    separators [-], [/] and [_] it is not empty (the suffix is not cut
    when nothing would be left). *)
Theorem base_asset_is_a_beginning (symbol : string) :
  starts_with (base_asset symbol) (upper symbol) = true /\
  (symbol <> "" ->
   contains "-" (upper symbol) = false -> contains "/" (upper symbol) = false ->
   contains "_" (upper symbol) = false ->
   base_asset symbol <> "").
Proof.
  unfold base_asset. set (s := upper symbol).
  assert (Hcut : forall q,
            starts_with (let r := drop_last (String.length q) s in if is_empty r then s else r) s
            = true).
  { intros q. cbv zeta. destruct (is_empty (drop_last (String.length q) s));
      [apply starts_with_refl|apply drop_last_prefix]. }
  assert (Hnonempty : symbol <> "" -> forall q,
            (let r := drop_last (String.length q) s in if is_empty r then s else r) <> "").
  { intros Hne q. cbv zeta.
    destruct (is_empty (drop_last (String.length q) s)) eqn:He.
    - subst s. destruct symbol; [congruence|discriminate].
    - intros Hr. rewrite Hr in He. discriminate. }
  split.
  - cbn [filter list_filter].
    repeat case_decide; try apply before_prefix; try apply Hcut; apply starts_with_refl.
  - intros Hne H1 H2 H3. cbn [filter list_filter]. rewrite H1, H2, H3.
    repeat case_decide; try (exfalso; assumption); try apply Hnonempty; try assumption.
    subst s. destruct symbol; [congruence|discriminate].
Qed.

Lemma base_asset_is_a_beginning_witness :
  base_asset "sol.p" <> "" /\ starts_with (base_asset "eth-usdt") "ETH-USDT" = true.
Proof.
  split.
  - apply (base_asset_is_a_beginning "sol.p"); [discriminate|reflexivity..].
  - apply (base_asset_is_a_beginning "eth-usdt").
Defined.

(** ** Responses of the exchange *)

Lemma dicts_of_are_dicts (l : list json) : forallb is_dict (dicts_of l) = true.
Proof.
  induction l as [|x l IH]; [reflexivity|]. unfold dicts_of in *. cbn.
  destruct (is_dict x) eqn:Hx; [cbn; rewrite Hx|]; exact IH.
Qed.

Lemma dicts_of_fixed (l : list json) : forallb is_dict l = true -> dicts_of l = l.
Proof.
  induction l as [|x l IH]; [reflexivity|]. unfold dicts_of in *. cbn.
  destruct (is_dict x); [|discriminate]. cbn. intros Hl. f_equal. apply IH, Hl.
Qed.

(** X19: whatever the exchange answered, [data_list] returns dicts only;
    it keeps the dicts of a list in their order, so a list of dicts is
    returned as it is and what [data_list] returned passes through it
    unchanged; a value that is neither a list nor a dict gives the empty
    list, and so does a dict with none of the list keys unless it has a
    symbol or a ticker, in which case it is returned as the only record. *)
Theorem data_list_returns_dicts (x : json) :
  forallb is_dict (data_list x) = true /\
  data_list (JList (data_list x)) = data_list x /\
  (forall l, forallb is_dict l = true -> data_list (JList l) = l) /\
  (is_dict x = false -> (forall l, x <> JList l) -> data_list x = []) /\
  (forall d,
     x = JDict d ->
     first_list d ["positions"; "positionData"; "list"; "data"; "items"] = None ->
     data_list x =
       if jtruthy (default JNull (dict_get d "symbol"))
          || jtruthy (default JNull (dict_get d "ticker"))
       then [x] else []).
Proof.
  assert (H1 : forallb is_dict (data_list x) = true).
  { destruct x as [| | | | |l|d]; try reflexivity; cbn [data_list].
    - apply dicts_of_are_dicts.
    - destruct (first_list d _); [apply dicts_of_are_dicts|].
      destruct (_ || _); reflexivity. }
  split; [exact H1|]. split; [|split; [|split]].
  - cbn [data_list]. apply dicts_of_fixed, H1.
  - intros l Hl. apply dicts_of_fixed, Hl.
  - intros Hd Hl. destruct x as [| | | | |l|d]; try reflexivity; [|discriminate].
    exfalso. apply (Hl l). reflexivity.
  - intros d -> Hnone. cbn [data_list]. rewrite Hnone. reflexivity.
Qed.




Lemma data_list_returns_dicts_witness :
  data_list (JDict [("code", JInt 0); ("ticker", JStr "BTC-USDT")]) =
  [JDict [("code", JInt 0); ("ticker", JStr "BTC-USDT")]] /\
  data_list (JStr "error") = [].
Proof.
  split.
  - apply (proj2 (proj2 (proj2 (proj2
             (data_list_returns_dicts (JDict [("code", JInt 0); ("ticker", JStr "BTC-USDT")])))))
             [("code", JInt 0); ("ticker", JStr "BTC-USDT")] eq_refl eq_refl).
  - apply (proj1 (proj2 (proj2 (proj2 (data_list_returns_dicts (JStr "error"))))));
      [reflexivity|discriminate].
Defined.

(** ** The figures of the daily summary *)

Lemma of_Z_nonzero (z : Z) : z <> 0%Z -> feqb (of_Z z) zero = false.
Proof.
  intros Hz. rewrite zero_eq. unfold of_Z, fin. cbn [feqb].
  destruct (Qeq_bool (Qred (inject_Z z)) 0) eqn:He; [|reflexivity].
  apply Qeq_bool_iff in He. rewrite Qred_correct in He.
  exfalso. apply Hz. unfold Qeq, inject_Z in He. cbn in He. lia.
Qed.

Lemma dict_set_sum (k : string) (v : nat) (cnt : list (string * nat)) :
  list_sum (map snd (dict_set k v cnt)) + default 0 (dict_get cnt k) =
  list_sum (map snd cnt) + v.
Proof.
  induction cnt as [|[k' v'] cnt IH]; [cbn; lia|].
  cbn [dict_set dict_get]. destruct (String.eqb k' k).
  - change (v + list_sum (map snd cnt) + v' = v' + list_sum (map snd cnt) + v). lia.
  - change (v' + list_sum (map snd (dict_set k v cnt)) + default 0 (dict_get cnt k) =
            v' + list_sum (map snd cnt) + v). lia.
Qed.

Lemma count_symbol_sum (cnt : list (string * nat)) (sym : string) :
  list_sum (map snd (count_symbol cnt sym)) = S (list_sum (map snd cnt)).
Proof.
  unfold count_symbol.
  pose proof (dict_set_sum sym (default 0 (dict_get cnt sym) + 1) cnt). lia.
Qed.

(** X21: [report_summary_text] computes its figures for every list of rows
    without raising, also for a day without trades, where the win rate is
    0: the wins and the losses add up to the number of rows, the realized
    total is the sum of the closed and the fee totals, and the counts per
    symbol add up to the number of rows that name a symbol. *)
Theorem report_summary_adds_up (rows : list trade) :
  exists sm,
    report_summary rows = Ok sm /\
    sm_total sm = length rows /\
    sm_win sm + sm_lose sm = sm_total sm /\
    sm_win sm = length (List.filter is_win rows) /\
    (rows = [] -> sm_wr sm = zero /\ sm_closed sm = zero /\ sm_fee sm = zero) /\
    sm_real sm = fadd (sm_closed sm) (sm_fee sm) /\
    list_sum (map snd (sm_cnt sm)) =
      length (List.filter (fun r => negb (is_empty (t_symbol r))) rows).
Proof.
  unfold report_summary.
  assert (Hwr : exists wr,
            (if (length rows =? 0)%nat then Ok zero
             else (q <-! div (of_Z (Z.of_nat (length (List.filter is_win rows))))
                             (of_Z (Z.of_nat (length rows)));
                   Ok (fmul q (of_Z 100)))) = Ok wr /\
            (rows = [] -> wr = zero)).
  { destruct rows as [|r rows]; [exists zero; split; reflexivity|].
    cbn [length Nat.eqb].
    destruct (div_defined (of_Z (Z.of_nat (length (List.filter is_win (r :: rows)))))
                (of_Z (Z.of_nat (S (length rows))))) as [q Hq];
      [apply of_Z_nonzero; lia|].
    rewrite Hq. cbn [rbind]. eexists. split; [reflexivity|discriminate]. }
  destruct Hwr as (wr & -> & Hempty). cbn [rbind].
  eexists. split; [reflexivity|]. cbn.
  pose proof (filter_length_le is_win rows) as Hle.
  assert (Hgen : forall cnt,
            list_sum (map snd (fold_left
               (fun cnt r => if is_empty (t_symbol r) then cnt
                             else count_symbol cnt (t_symbol r)) rows cnt)) =
            list_sum (map snd cnt) +
            length (List.filter (fun r => negb (is_empty (t_symbol r))) rows)).
  { clear. induction rows as [|r rows IH]; intros cnt; cbn [fold_left]; [cbn; lia|].
    rewrite IH. cbn [List.filter]. destruct (is_empty (t_symbol r)); cbn [negb length].
    - reflexivity.
    - rewrite count_symbol_sum. lia. }
  repeat split; try lia.
  - apply Hempty. assumption.
  - subst. reflexivity.
  - subst. reflexivity.
  - exact (Hgen []).
Qed.

Lemma report_summary_adds_up_witness :
  exists sm, report_summary Cases.day_rows = Ok sm /\
             sm_win sm = 2 /\ sm_lose sm = 2 /\ list_sum (map snd (sm_cnt sm)) = 3.
Proof.
  destruct (report_summary_adds_up Cases.day_rows)
    as (sm & Hsm & Ht & Hwl & Hw & _ & _ & Hc).
  exists sm. split; [exact Hsm|].
  assert (Hwin : sm_win sm = 2) by (rewrite Hw; vm_compute; reflexivity).
  split; [exact Hwin|]. split.
  - rewrite Ht, Hwin in Hwl. cbn in Hwl. lia.
  - rewrite Hc. vm_compute. reflexivity.
Defined.

(** ** The snapshot that a cycle stores *)

Section StoredSnapshot.
Context `{PyRuntime}.

Lemma norm_pos_raw (it : raw) (p : position) : norm_pos it = Ok (Some p) -> p_raw p = it.
Proof.
  unfold norm_pos.
  destruct (is_empty (resolved_symbol it)); [discriminate|].
  destruct (fleb (resolved_qty it) zero); [discriminate|].
  repeat match goal with
  | |- context [rbind ?m _] =>
      let r := fresh "r" in destruct m as [r|] eqn:?; cbn [rbind]
  end; try discriminate.
  intros [= <-]. reflexivity.
Qed.

Lemma fetch_positions_accepted (raws : list raw) (p : position) :
  In p (fetch_positions raws) -> exists it, In it raws /\ norm_pos it = Ok (Some p).
Proof.
  unfold fetch_positions. induction raws as [|it raws IH]; [intros []|].
  cbn [omap list_omap]. destruct (norm_pos it) as [[q|]|e] eqn:Hn.
  - intros [<-|Hin]; [exists it; split; [left; reflexivity|exact Hn]|].
    destruct (IH Hin) as (it' & Hin' & Hn'). exists it'. split; [right|]; assumption.
  - intros Hin. destruct (IH Hin) as (it' & Hin' & Hn'). exists it'. split; [right|]; assumption.
  - intros Hin. destruct (IH Hin) as (it' & Hin' & Hn'). exists it'. split; [right|]; assumption.
Qed.

Lemma fetch_positions_length (raws : list raw) :
  length (fetch_positions raws) <= length raws.
Proof.
  unfold fetch_positions. induction raws as [|it raws IH]; [reflexivity|].
  cbn [omap list_omap]. destruct (norm_pos it) as [[q|]|e]; cbn [length]; lia.
Qed.

(** X22: the snapshot that a cycle builds from the records of the exchange
    has at most as many entries as there are records, and each entry is a
    position that [norm_pos] returned for one of the records, filed under
    the key of its own symbol and side, with a symbol that is not empty and
    a quantity that is neither negative nor [<= 0]; records that
    [norm_pos] rejects leave no entry. *)
Theorem snapshot_holds_accepted_positions (raws : list raw) :
  length (current (fetch_positions raws)) <= length raws /\
  forall k p, dict_get (current (fetch_positions raws)) k = Some p ->
    k = pkey (p_symbol p) (p_side p) /\
    In (p_raw p) raws /\ norm_pos (p_raw p) = Ok (Some p) /\
    p_symbol p <> "" /\ fleb (p_qty p) zero = false /\ fltb (p_qty p) zero = false.
Proof.
  split.
  - pose proof (current_length (fetch_positions raws)) as Hl.
    pose proof (fetch_positions_length raws). lia.
  - intros k p Hg. destruct (current_entries _ k p Hg) as [Hk Hin].
    destruct (fetch_positions_accepted raws p Hin) as (it & Hit & Hn).
    pose proof (norm_pos_raw it p Hn) as Hraw.
    destruct (norm_pos_some it p Hn) as (Hs & Hne & Hq & Hle).
    rewrite Hraw. repeat split; try assumption.
    rewrite Hq. apply resolved_qty_not_negative.
Qed.

End StoredSnapshot.

Lemma snapshot_holds_accepted_positions_witness :
  exists p, dict_get (Sample.snapshot_of Sample.three) "ETH-USDT|Short" = Some p /\
            In (p_raw p) Sample.three /\ p_symbol p <> "".
Proof.
  destruct (dict_get (Sample.snapshot_of Sample.three) "ETH-USDT|Short") as [p|] eqn:Hg;
    [|vm_compute in Hg; discriminate].
  exists p. split; [reflexivity|].
  destruct (proj2 (snapshot_holds_accepted_positions (H := Sample.runtime) Sample.three)
              "ETH-USDT|Short" p Hg) as (_ & Hin & _ & Hne & _).
  split; [exact Hin|exact Hne].
Defined.

Lemma norm_pos_accepts_witness :
  exists p, norm_pos (H := Sample.runtime) Sample.eth = Ok (Some p) /\
            p_symbol p <> "" /\ fgtb (p_qty p) zero = true.
Proof.
  destruct (norm_pos (H := Sample.runtime) Sample.eth) as [[p|]|e] eqn:Hn;
    try (vm_compute in Hn; discriminate).
  exists p. split; [reflexivity|].
  destruct (proj2 (norm_pos_accepts (H := Sample.runtime) Sample.eth) p Hn)
    as (_ & Hne & Hq & _ & _ & Hpos).
  split; [exact Hne|]. apply Hpos. rewrite Hq. vm_compute. discriminate.
Defined.

